(** * Data_Preparation.py: the [preprocess_data] transform

    A shallow embedding of [model/Time Series/Data_Preparation.py].

    Conventions of the model.
    - A float64 is an exact rational ([Q]); NaN, pandas' missing marker, is
      [None].  Every cell is numeric: the transform never looks inside the
      identifier columns, so their codes stand for themselves.
    - A [DataFrame] is column-major: row labels plus named columns of cells.
    - pandas objects live in a heap and are reached through references, so
      that the in-place calls of the source ([drop], [dropna], [reset_index]
      with [inplace=True]) are real mutations of a shared store.
    - Python exceptions are values of [exn]; a raising call keeps the store
      as it was at the point of the raise.
    - The square root used by [StandardScaler] is a parameter of the
      development: nothing is assumed about it. *)

From Stdlib Require Import String Ascii.
From Stdlib Require Import ZArith QArith Qround List Bool Lia Lqa.
Import ListNotations.

Local Open Scope string_scope.
Local Open Scope list_scope.

(* ================================================================== *)
(** ** Numbers *)
(* ================================================================== *)

Module Num.

(** [numpy.rint]: round to the nearest integer, ties to even. *)
Definition rint (q : Q) : Z :=
  let f := Qfloor q in
  match Qcompare (q - inject_Z f) (1 # 2) with
  | Lt => f
  | Gt => (f + 1)%Z
  | Eq => if Z.even f then f else (f + 1)%Z
  end.

(** [round(x, 2)] on a pandas Series: scale by 100, [rint], scale back. *)
Definition round2 (q : Q) : Q :=
  Qred (inject_Z (rint (q * 100)) / 100).

Definition Qsum (l : list Q) : Q := fold_right Qplus 0%Q l.

Definition Qlen (l : list Q) : Q := inject_Z (Z.of_nat (length l)).

Definition mean (l : list Q) : Q := Qred (Qsum l / Qlen l).

(** Population variance ([ddof = 0]), as [StandardScaler] computes it. *)
Definition variance (l : list Q) : Q :=
  let m := mean l in
  Qred (Qsum (map (fun x => (x - m) * (x - m))%Q l) / Qlen l).

Fixpoint insert_sorted (x : Q) (l : list Q) : list Q :=
  match l with
  | [] => [x]
  | y :: l' => if Qle_bool x y then x :: l else y :: insert_sorted x l'
  end.

Definition sort (l : list Q) : list Q := fold_right insert_sorted [] l.

(** [numpy.median]: the middle value, or the mean of the two middle ones. *)
Definition median (l : list Q) : Q :=
  let s := sort l in
  let n := length s in
  if Nat.even n
  then Qred ((nth (n / 2 - 1) s 0 + nth (n / 2) s 0) / 2)
  else Qred (nth (n / 2) s 0).

Definition Qminimum (l : list Q) : Q :=
  match l with
  | [] => 0
  | x :: l' => fold_left (fun a b => if Qle_bool b a then b else a) l' x
  end.

Definition Qmaximum (l : list Q) : Q :=
  match l with
  | [] => 0
  | x :: l' => fold_left (fun a b => if Qle_bool a b then b else a) l' x
  end.

Definition count_eq (x : Q) (l : list Q) : nat :=
  length (filter (Qeq_bool x) l).

(** Distinct values, first occurrences kept. *)
Fixpoint distinct (l : list Q) : list Q :=
  match l with
  | [] => []
  | x :: l' => x :: filter (fun y => negb (Qeq_bool x y)) (distinct l')
  end.

(** sklearn's [_most_frequent]: the highest count wins, the smallest
    value among ties. *)
Definition most_frequent (l : list Q) : Q :=
  let best := fold_right Nat.max 0%nat (map (fun x => count_eq x l) l) in
  Qminimum (filter (fun x => Nat.eqb (count_eq x l) best) l).

(** A concrete square root for closed examples: the integer square root
    taken at 52 fractional bits. *)
Definition Qsqrt (q : Q) : Q :=
  Qred (Z.sqrt (Qnum q * Zpos (Qden q) * 4 ^ 52) # (Qden q * 2 ^ 52)).

End Num.

(* ================================================================== *)
(** ** Exceptions *)
(* ================================================================== *)

Inductive exn : Type :=
| NameError
| KeyError (key : string)
| UnboundLocalError (name : string)
| ValueError
| AssertionError.

Inductive outcome (A : Type) : Type :=
| Return (a : A)
| Raise (e : exn).

Arguments Return {A} a.
Arguments Raise {A} e.

Definition obind {A B : Type} (m : outcome A) (k : A -> outcome B) : outcome B :=
  match m with
  | Return a => k a
  | Raise e => Raise e
  end.

(* ================================================================== *)
(** ** pandas *)
(* ================================================================== *)

Definition cell : Type := option Q.

Definition isna (c : cell) : bool :=
  match c with None => true | Some _ => false end.

Definition notna (c : cell) : bool := negb (isna c).

(** The non-missing values of a column, in row order. *)
Fixpoint observed (c : list cell) : list Q :=
  match c with
  | [] => []
  | Some x :: c' => x :: observed c'
  | None :: c' => observed c'
  end.

Record DataFrame : Type := mkDataFrame {
  index : list Z;                          (* row labels *)
  cols : list (string * list cell)         (* columns, in schema order *)
}.

Definition names (df : DataFrame) : list string := map fst (cols df).

(** [df.shape[0]] *)
Definition shape0 (df : DataFrame) : nat := length (index df).

Definition RangeIndex (n : nat) : list Z := map Z.of_nat (seq 0 n).

(** [Series.isna().sum()] for one column *)
Definition isna_sum (c : list cell) : nat := length (filter isna c).

(** [Series.nunique()]: the number of distinct non-missing values. *)
Definition nunique (c : list cell) : nat := length (Num.distinct (observed c)).

Definition mem (s : string) (l : list string) : bool :=
  existsb (String.eqb s) l.

(** [df[label]]: the column called [label]. *)
Fixpoint get_column (label : string) (cs : list (string * list cell))
  : option (list cell) :=
  match cs with
  | [] => None
  | (n, c) :: cs' => if String.eqb label n then Some c else get_column label cs'
  end.

(** [df.drop(labels, axis=1)] *)
Definition drop (labels : list string) (df : DataFrame) : DataFrame :=
  mkDataFrame (index df)
              (filter (fun nc => negb (mem (fst nc) labels)) (cols df)).

(** Boolean-mask selection of rows. *)
Fixpoint take {A : Type} (mask : list bool) (l : list A) : list A :=
  match mask, l with
  | true :: m', x :: l' => x :: take m' l'
  | false :: m', _ :: l' => take m' l'
  | _, _ => []
  end.

(** [df.dropna(subset=[label])]: [KeyError] when the column is absent,
    otherwise the rows whose cell in that column is present. *)
Definition dropna (label : string) (df : DataFrame) : outcome DataFrame :=
  match get_column label (cols df) with
  | None => Raise (KeyError label)
  | Some c =>
      let keep := map notna c in
      Return (mkDataFrame (take keep (index df))
                          (map (fun nc => (fst nc, take keep (snd nc))) (cols df)))
  end.

(** [df.iloc[:, a:]] and [df.iloc[:, 0:b]] *)
Definition iloc_from (a : nat) (df : DataFrame) : DataFrame :=
  mkDataFrame (index df) (skipn a (cols df)).

Definition iloc_upto (b : nat) (df : DataFrame) : DataFrame :=
  mkDataFrame (index df) (firstn b (cols df)).

(** [df[labels]]: the listed columns, in the order listed. *)
Fixpoint getitem (labels : list string) (df : DataFrame)
  : outcome (list (string * list cell)) :=
  match labels with
  | [] => Return []
  | l :: ls =>
      match get_column l (cols df) with
      | None => Raise (KeyError l)
      | Some c => obind (getitem ls df) (fun r => Return ((l, c) :: r))
      end
  end.

Definition Zlist_eqb (a b : list Z) : bool :=
  if list_eq_dec Z.eq_dec a b then true else false.

(** Position of a row label in an index. *)
Fixpoint locate (lbl : Z) (ix : list Z) : option nat :=
  match ix with
  | [] => None
  | z :: ix' => if Z.eqb lbl z then Some 0%nat
                else option_map S (locate lbl ix')
  end.

(** [Series.reindex]: the cell at each label of [ix], NaN where the label
    is not in [from]. *)
Definition reindex (from ix : list Z) (c : list cell) : list cell :=
  map (fun lbl => match locate lbl from with
                  | Some i => nth i c None
                  | None => None
                  end) ix.

(** Labels of [b] that [a] lacks, appended to [a]. *)
Definition index_union (a b : list Z) : list Z :=
  a ++ filter (fun z => negb (existsb (Z.eqb z) a)) b.

(** [pd.concat([a, b], axis=1)]: columns side by side, rows aligned on the
    row labels (outer join). *)
Definition concat_axis1 (a b : DataFrame) : DataFrame :=
  if Zlist_eqb (index a) (index b)
  then mkDataFrame (index a) (cols a ++ cols b)
  else
    let ix := index_union (index a) (index b) in
    mkDataFrame ix
      (map (fun nc => (fst nc, reindex (index a) ix (snd nc))) (cols a) ++
       map (fun nc => (fst nc, reindex (index b) ix (snd nc))) (cols b)).

(** [df.reset_index(drop=True)] *)
Definition reset_index (df : DataFrame) : DataFrame :=
  mkDataFrame (RangeIndex (shape0 df)) (cols df).

(** A 2-D float array, column-major; [nrows] is kept apart because an
    array may have rows and no column. *)
Record ndarray : Type := mkArray {
  nrows : nat;
  acols : list (list cell)
}.

(** [pd.DataFrame(array, columns=labels)]: the shapes must agree. *)
Definition DataFrame_of_array (a : ndarray) (labels : list string)
  : outcome DataFrame :=
  if Nat.eqb (length (acols a)) (length labels)
  then Return (mkDataFrame (RangeIndex (nrows a)) (combine labels (acols a)))
  else Raise ValueError.

(* ================================================================== *)
(** ** scikit-learn *)
(* ================================================================== *)

(** [SimpleImputer(strategy=..., fill_value=...)] *)
Record SimpleImputer : Type := mkSimpleImputer {
  strategy : string;
  fill_value : option Q
}.

Definition valid_strategy (s : string) : bool :=
  mem s ["mean"; "median"; "most_frequent"; "constant"].

(** The fitted statistic of one column: NaN ([None]) when the column has
    no observed value, except for ["constant"]. *)
Definition statistic (imp : SimpleImputer) (c : list cell) : option Q :=
  if String.eqb (strategy imp) "constant" then
    Some (match fill_value imp with Some v => v | None => 0%Q end)
  else
    match observed c with
    | [] => None
    | obs =>
        if String.eqb (strategy imp) "mean" then Some (Num.mean obs)
        else if String.eqb (strategy imp) "median" then Some (Num.median obs)
        else Some (Num.most_frequent obs)
    end.

Definition fillna (v : Q) (c : list cell) : list cell :=
  map (fun x => match x with None => Some v | Some _ => x end) c.

(** The value a cell has once the blanks are filled with [v]. *)
Definition filled (v : Q) (x : cell) : Q :=
  match x with Some y => y | None => v end.

(** [transform]: a column whose statistic is NaN is discarded, the others
    have their missing cells replaced by the statistic. *)
Fixpoint impute (imp : SimpleImputer) (X : list (list cell))
  : list (list cell) :=
  match X with
  | [] => []
  | c :: X' =>
      match statistic imp c with
      | Some v => fillna v c :: impute imp X'
      | None => impute imp X'
      end
  end.

(** [check_array]: at least one sample and one feature. *)
Definition check_array (X : ndarray) : outcome ndarray :=
  if Nat.eqb (nrows X) 0 then Raise ValueError
  else if Nat.eqb (length (acols X)) 0 then Raise ValueError
  else Return X.

Definition SimpleImputer_fit_transform (imp : SimpleImputer) (X : ndarray)
  : outcome ndarray :=
  if valid_strategy (strategy imp) then
    obind (check_array X) (fun X =>
    Return (mkArray (nrows X) (impute imp (acols X))))
  else Raise ValueError.

Inductive Scaler : Type := StandardScaler | MinMaxScaler.

(** [_handle_zeros_in_scale] *)
Definition handle_zeros (s : Q) : Q := if Qeq_bool s 0 then 1%Q else s.

(** Fitted parameters of a scaler for one column: [x] becomes
    [(x - shift) / scale].  NaN cells are disregarded in [fit] and kept by
    [transform]. *)
Record fitted : Type := mkFitted { shift : Q; scale : Q }.

Definition scaler_transform (p : fitted) (c : list cell) : list cell :=
  map (option_map (fun x => Qred ((x - shift p) / scale p))) c.

Definition MinMaxScaler_fit (c : list cell) : fitted :=
  let data_min := Num.Qminimum (observed c) in
  let data_max := Num.Qmaximum (observed c) in
  mkFitted data_min (handle_zeros (Qred (data_max - data_min))).

Section Transform.

(** The floating-point square root. *)
Variable sqrt : Q -> Q.

Definition StandardScaler_fit (c : list cell) : fitted :=
  let mean_ := Num.mean (observed c) in
  let var_ := Num.variance (observed c) in
  mkFitted mean_ (handle_zeros (sqrt var_)).

Definition scaler_fit (s : Scaler) (c : list cell) : fitted :=
  match s with
  | StandardScaler => StandardScaler_fit c
  | MinMaxScaler => MinMaxScaler_fit c
  end.

(** [fit_transform] of a scaler: each column with its own parameters. *)
Definition scaler_fit_transform (s : Scaler) (X : ndarray) : outcome ndarray :=
  obind (check_array X) (fun X =>
  Return (mkArray (nrows X)
                  (map (fun c => scaler_transform (scaler_fit s c) c) (acols X)))).

(** [Pipeline([("imputer", imp), ("scaler", s)]).fit_transform] *)
Definition Pipeline (imp : SimpleImputer) (s : Scaler) (X : ndarray)
  : outcome ndarray :=
  obind (SimpleImputer_fit_transform imp X) (scaler_fit_transform s).

(** [ColumnTransformer(transformers).fit_transform(X)]: each transformer
    is fitted on its own columns and the results are stacked side by
    side; a transformer with an empty column list is skipped. *)
Fixpoint fit_transform_each
         (transformers : list (string * (ndarray -> outcome ndarray) * list string))
         (X : DataFrame) : outcome (list (list cell)) :=
  match transformers with
  | [] => Return []
  | (_, trans, []) :: ts => fit_transform_each ts X
  | (_, trans, columns) :: ts =>
      obind (getitem columns X) (fun Xs =>
      obind (trans (mkArray (shape0 X) (map snd Xs))) (fun Y =>
      obind (fit_transform_each ts X) (fun rest =>
      Return (acols Y ++ rest))))
  end.

Definition ColumnTransformer_fit_transform
           (transformers : list (string * (ndarray -> outcome ndarray) * list string))
           (X : DataFrame) : outcome ndarray :=
  obind (fit_transform_each transformers X) (fun cs =>
  Return (mkArray (shape0 X) cs)).

End Transform.

(* ================================================================== *)
(** ** The store *)
(* ================================================================== *)

Definition ref : Type := nat.

(** The process state: the pandas objects alive, and the files written. *)
Record world : Type := mkWorld {
  heap : list DataFrame;
  disk : list (string * DataFrame)
}.

Definition M (A : Type) : Type := world -> outcome A * world.

Definition ret {A : Type} (a : A) : M A := fun w => (Return a, w).

Definition raise {A : Type} (e : exn) : M A := fun w => (Raise e, w).

Definition bind {A B : Type} (m : M A) (k : A -> M B) : M B :=
  fun w => match m w with
           | (Return a, w') => k a w'
           | (Raise e, w') => (Raise e, w')
           end.

Definition lift {A : Type} (o : outcome A) : M A := fun w => (o, w).

Declare Scope py_scope.
Delimit Scope py_scope with py.
Notation "x <- m ;; k" := (bind m (fun x => k))
  (at level 100, m at next level, right associativity) : py_scope.
Notation "m ;; k" := (bind m (fun _ => k))
  (at level 100, right associativity) : py_scope.

Local Open Scope py_scope.

(** A new object; its reference is the next free slot. *)
Definition alloc (df : DataFrame) : M ref :=
  fun w => (Return (length (heap w)), mkWorld (heap w ++ [df]) (disk w)).

Definition deref (r : ref) : M DataFrame :=
  fun w => match nth_error (heap w) r with
           | Some df => (Return df, w)
           | None => (Raise NameError, w)
           end.

Fixpoint update (r : ref) (df : DataFrame) (h : list DataFrame) : list DataFrame :=
  match h, r with
  | [], _ => []
  | _ :: h', O => df :: h'
  | x :: h', S r' => x :: update r' df h'
  end.

Definition assign (r : ref) (df : DataFrame) : M unit :=
  fun w => (Return tt, mkWorld (update r df (heap w)) (disk w)).

(** An [inplace=True] call: the object behind [r] is replaced by the
    result, or left alone when the call raises. *)
Definition inplace (r : ref) (f : DataFrame -> outcome DataFrame) : M unit :=
  df <- deref r ;;
  df' <- lift (f df) ;;
  assign r df'.

(** [df.copy()] *)
Definition copy (r : ref) : M ref :=
  df <- deref r ;;
  alloc df.

(** [df.to_csv(file_name)], the one operation that writes to the disk. *)
Definition to_csv (df : DataFrame) (file_name : string) : M unit :=
  fun w => (Return tt, mkWorld (heap w) ((file_name, df) :: disk w)).

(** [assert b] *)
Definition assert (b : bool) : M unit :=
  if b then ret tt else raise AssertionError.

(* ================================================================== *)
(** ** The module *)
(* ================================================================== *)

(** The 74 column names assigned to the table (lines 39-56). *)
Definition columns : list string :=
  ["Cast Count"; "Bottle Count"; "Station ID"; "Depth ID"; "Depth"; "Temperature"; "Salinity";
   "O2_mL/L"; "H2O Density"; "O2 Sat"; "O2_µmol/Kg"; "Bottle No"; "Record Indicator";
   "Temperature Precision"; "Temperature Quality"; "Salinity Precision"; "Salinity Quality";
   "Pressure Quality"; "O2 Quality"; "H20_Density Quality"; "O2_Saturation Quality";
   "Chlorophyll-a"; "Chlorophyll-a Quality"; "Phaeophytin_Concentration"; "Phaeophytin Quality"; "Phosphate Concentration";
   "Phosphate Quality"; "Silicate Concentration"; "Silicate Quality"; "Nitrite Concentration";
   "Nitrite Quality"; "Nitrate Concentration"; "Nitrate Quality"; "NH4 Concentration"; "NH4 Quality";
   "C14_As1"; "C14_As1 Precision"; "C14_As1 Quality"; "C14_As2"; "C14_As2 Precision"; "C14_As2 Quality";
   "C14_As_Dark"; "C14_As_Dark Precision"; "C14_As_Dark Quality"; "Mean_C14_As"; "Mean_C14_As Precision";
   "Mean_C14_As Quality"; "Incubation Time"; "Light Intensity"; "Reported Depth"; "Reported Temperature";
   "Reported Potential Temperature"; "Reported Salinity"; "Reported Potential Density";
   "Reported Specific Volume Anomaly"; "Reported Dynamic Height"; "Reported O2_mL/L"; "Reported O2 Sat";
   "Reported Silicate Concentration"; "Reported Phosphate Concentration"; "Reported Nitrate Concentration";
   "Reported Nitrite Concentration"; "Reported NH4 Concentration"; "Reported Chlorophyll-a";
   "Reported Phaeophytin"; "Pressure (decibars)"; "Sample No"; "Dissolved_Inorganic_Carbon1";
   "Dissolved_Inorganic_Carbon2"; "Total Alkalinity1"; "Total Alkalinity2"; "pH2"; "pH1";
   "DIC Quality Comment"].

(** [bottle_df.columns = columns] (line 58): renaming by position, a
    [ValueError] when the table has another number of columns. *)
Definition set_columns (labels : list string) (df : DataFrame) : outcome DataFrame :=
  if Nat.eqb (length labels) (length (cols df))
  then Return (mkDataFrame (index df) (combine labels (map snd (cols df))))
  else Raise ValueError.

(** The global [bottle_df] is the first object the module creates. *)
Definition bottle_df : ref := 0%nat.

(** The state after the module's top level ran on the table read from
    [bottle.csv]. *)
Definition loaded (csv : DataFrame) : outcome world :=
  obind (set_columns columns csv) (fun df => Return (mkWorld [df] [])).

(** *** Stage 1: missingness (lines 110-119) *)

(** [round(count / rows * 100, 2)]; NaN for a table without rows. *)
Definition percent (count rows : nat) : option Q :=
  if Nat.eqb rows 0 then None
  else Some (Num.round2 (inject_Z (Z.of_nat count) / inject_Z (Z.of_nat rows) * 100)).

Definition percent_missing (data : DataFrame) : list (string * option Q) :=
  map (fun nc => (fst nc, percent (isna_sum (snd nc)) (shape0 data))) (cols data).

(** The frame [missing]: per column, its label, the total and the percent
    of missing values. *)
Definition missing (data : DataFrame) : list (string * (nat * option Q)) :=
  map (fun nc => (fst nc, (isna_sum (snd nc),
                           percent (isna_sum (snd nc)) (shape0 data))))
      (cols data).

(** [p > t] on floats: false when [p] is NaN. *)
Definition gt (p : option Q) (t : Q) : bool :=
  match p with
  | Some x => negb (Qle_bool x t)
  | None => false
  end.

Definition columns_to_drop (drop_threshold : Q) (data : DataFrame) : list string :=
  map fst (filter (fun r => gt (snd (snd r)) drop_threshold) (missing data)).

(** *** Stage 2: classification (lines 131-142) *)

(** A Python [dict]: keys in insertion order, one entry per key. *)
Definition dict : Type := list (string * nat).

Fixpoint dict_set (k : string) (v : nat) (d : dict) : dict :=
  match d with
  | [] => [(k, v)]
  | (k', v') :: d' =>
      if String.eqb k k' then (k, v) :: d' else (k', v') :: dict_set k v d'
  end.

Fixpoint dict_get (k : string) (d : dict) : option nat :=
  match d with
  | [] => None
  | (k', v') :: d' => if String.eqb k k' then Some v' else dict_get k d'
  end.

Definition keys (d : dict) : list string := map fst d.

(** The loop of lines 135-136. *)
Definition uniques (new_data : DataFrame) : dict :=
  fold_left (fun u column =>
               match get_column column (cols new_data) with
               | Some c => dict_set column (nunique c) u
               | None => u
               end)
            (names new_data) [].

Definition cat_attributes (uniques : dict) : list string :=
  filter (fun column => match dict_get column uniques with
                        | Some n => Nat.leb n 6
                        | None => false
                        end) (keys uniques).

Definition num_attributes (uniques : dict) : list string :=
  filter (fun column => match dict_get column uniques with
                        | Some n => Nat.ltb 6 n
                        | None => false
                        end) (keys uniques).

(** The column a label selects, empty when there is none. *)
Definition column_of (cs : list (string * list cell)) (l : string) : list cell :=
  match get_column l cs with Some c => c | None => [] end.

(** The number of distinct values that line 136 stores for a label. *)
Definition unique_count (new_data : DataFrame) (n : string) : nat :=
  match get_column n (cols new_data) with
  | Some c => nunique c
  | None => 0%nat
  end.

(** *** Stage 5: the final check (line 182) *)

(** Python's [all] over the per-column counts of missing cells. *)
Definition all_isna_sum (df : DataFrame) : bool :=
  forallb (fun nc => negb (Nat.eqb (isna_sum (snd nc)) 0)) (cols df).

Section Preprocess.

Variable sqrt : Q -> Q.

Definition preprocess_data
           (drop_threshold : Q) (num_strategy cat_strategy : string)
           (fill_value : Q) (scaling file_name : string) : M DataFrame :=
  data <- copy bottle_df ;;
  (* columns above the threshold *)
  d <- deref data ;;
  let columns_to_drop := columns_to_drop drop_threshold d in
  inplace data (fun df => Return (drop columns_to_drop df)) ;;
  (* rows without the target *)
  inplace data (dropna "Salinity") ;;
  d <- deref data ;;
  let new_data := iloc_from 4 d in
  let uniques := uniques new_data in
  let cat_attributes := cat_attributes uniques in
  let num_attributes := num_attributes uniques in
  nums <- lift (getitem num_attributes new_data) ;;
  cats <- lift (getitem cat_attributes new_data) ;;
  let new_data := concat_axis1 (mkDataFrame (index new_data) nums)
                               (mkDataFrame (index new_data) cats) in
  (* imputers and scaler *)
  let numerical_imputer :=
    if String.eqb num_strategy "constant"
    then mkSimpleImputer num_strategy (Some fill_value)
    else mkSimpleImputer num_strategy None in
  let categorical_imputer := mkSimpleImputer cat_strategy None in
  scaler <- (if String.eqb scaling "standard" then ret StandardScaler
             else if String.eqb scaling "normal" then ret MinMaxScaler
             else raise (UnboundLocalError "scaler")) ;;
  let numerical_pipeline := Pipeline sqrt numerical_imputer scaler in
  let full_pipeline :=
    [("num", numerical_pipeline, num_attributes);
     ("cat", SimpleImputer_fit_transform categorical_imputer, cat_attributes)] in
  X <- lift (ColumnTransformer_fit_transform full_pipeline new_data) ;;
  df <- lift (DataFrame_of_array X (num_attributes ++ cat_attributes)) ;;
  prepared_bottle_df <- alloc df ;;
  (* the excluded columns are restored *)
  d <- deref data ;;
  excluded_columns <- alloc (iloc_upto 4 d) ;;
  inplace excluded_columns (fun df => Return (reset_index df)) ;;
  inplace prepared_bottle_df (fun df => Return (reset_index df)) ;;
  e <- deref excluded_columns ;;
  p <- deref prepared_bottle_df ;;
  let prepared_df := concat_axis1 e p in
  assert (negb (all_isna_sum prepared_df)) ;;
  (* line 185, [prepared_bottle_df.to_csv(file_name)], is commented out *)
  ret prepared_df.

End Preprocess.

(* ================================================================== *)
(** ** The call as a function of the source table *)
(* ================================================================== *)

Section Functional.

Variable sqrt : Q -> Q.

(** Lines 128-172 on the pruned table [d]: the frame
    [prepared_bottle_df] as first built. *)
Definition prepared_bottle
           (num_strategy cat_strategy : string) (fill_value : Q)
           (scaling : string) (d : DataFrame) : outcome DataFrame :=
  let new_data := iloc_from 4 d in
  let u := uniques new_data in
  obind (getitem (num_attributes u) new_data) (fun nums =>
  obind (getitem (cat_attributes u) new_data) (fun cats =>
  let new_data := concat_axis1 (mkDataFrame (index new_data) nums)
                               (mkDataFrame (index new_data) cats) in
  let numerical_imputer :=
    if String.eqb num_strategy "constant"
    then mkSimpleImputer num_strategy (Some fill_value)
    else mkSimpleImputer num_strategy None in
  obind (if String.eqb scaling "standard" then Return StandardScaler
         else if String.eqb scaling "normal" then Return MinMaxScaler
         else Raise (UnboundLocalError "scaler")) (fun scaler =>
  obind (ColumnTransformer_fit_transform
           [("num", Pipeline sqrt numerical_imputer scaler, num_attributes u);
            ("cat", SimpleImputer_fit_transform (mkSimpleImputer cat_strategy None),
             cat_attributes u)] new_data) (fun X =>
  DataFrame_of_array X (num_attributes u ++ cat_attributes u))))).

(** The table after lines 119-125. *)
Definition pruned (drop_threshold : Q) (src : DataFrame) : outcome DataFrame :=
  dropna "Salinity" (drop (columns_to_drop drop_threshold src) src).

(** What a call returns or raises, given the table behind [bottle_df]. *)
Definition transform
           (drop_threshold : Q) (num_strategy cat_strategy : string)
           (fill_value : Q) (scaling : string) (src : DataFrame)
  : outcome DataFrame :=
  obind (pruned drop_threshold src) (fun d =>
  obind (prepared_bottle num_strategy cat_strategy fill_value scaling d) (fun df =>
  let prepared_df := concat_axis1 (reset_index (iloc_upto 4 d)) (reset_index df) in
  if all_isna_sum prepared_df then Raise AssertionError
  else Return prepared_df)).

End Functional.

(* ================================================================== *)
(** ** Notions used in the statements *)
(* ================================================================== *)

(** The percentage as the specification words it:
    [missing_count / row_count * 100], without rounding. *)
Definition spec_percent (count rows : nat) : Q :=
  (inject_Z (Z.of_nat count) / inject_Z (Z.of_nat rows) * 100)%Q.

(** The specification's configuration errors (its section 7) are raised
    for a parameter outside its enumeration.  In the code such a value
    surfaces as sklearn's [ValueError] (a strategy) or as
    [UnboundLocalError] (the scaling). *)
Definition spec_configuration_error (e : exn) : bool :=
  match e with
  | ValueError | UnboundLocalError _ => true
  | NameError | KeyError _ | AssertionError => false
  end.

(** A transformer whose output has no missing cell. *)
Definition completes (trans : ndarray -> outcome ndarray) : Prop :=
  forall X Y, trans X = Return Y -> forall c, In c (acols Y) -> isna_sum c = 0%nat.


(** Number of missing cells of a table. *)
Definition missing_cells (df : DataFrame) : nat :=
  fold_right Nat.add 0%nat (map (fun nc => isna_sum (snd nc)) (cols df)).

(* ================================================================== *)
(** ** Sample tables *)
(* ================================================================== *)

(** The column [1; 2; ...; n], without a missing value. *)
Definition full (n : nat) : list cell :=
  map (fun i => Some (inject_Z (Z.of_nat i))) (seq 1 n).

(** A table with the 74 columns of the schema, [f] giving the cells. *)
Definition sample (rows : nat) (f : string -> list cell) : DataFrame :=
  mkDataFrame (RangeIndex rows) (map (fun n => (n, f n)) columns).

(** The store right after the module was loaded on [src]. *)
Definition store_of (src : DataFrame) : world := mkWorld [src] [].

(** Eight rows; the identifier ["Cast Count"] has a blank in its first
    row. *)
Definition blank_identifier : DataFrame :=
  sample 8 (fun n => if String.eqb n "Cast Count" then None :: full 7
                     else full 8).

(** Three rows; ["Temperature"] misses one value out of three. *)
Definition third_missing : DataFrame :=
  sample 3 (fun n => if String.eqb n "Temperature"
                     then [None; Some 1%Q; Some 2%Q]
                     else full 3).

(** Three rows; ["Cast Count"] is known only in the row that has no
    ["Salinity"]. *)
Definition late_identifier : DataFrame :=
  sample 3 (fun n => if String.eqb n "Cast Count" then [None; None; Some 1%Q]
                     else if String.eqb n "Salinity"
                          then [Some 1%Q; Some 2%Q; None]
                          else full 3).

(** Three rows; the target misses two values out of three. *)
Definition sparse_target : DataFrame :=
  sample 3 (fun n => if String.eqb n "Salinity" then [None; None; Some 1%Q]
                     else full 3).

(** Two rows; the identifiers are complete, every other column misses its
    first value. *)
Definition sparse_features : DataFrame :=
  sample 2 (fun n => if mem n (firstn 4 columns) then full 2
                     else [None; Some 1%Q]).

(** Eight rows with both kinds of attribute: a constant flag, a flag with
    blanks, a measurement with a blank. *)
Definition mixed : DataFrame :=
  sample 8 (fun n =>
    if String.eqb n "Record Indicator" then repeat (Some 3%Q) 8
    else if String.eqb n "Salinity Quality"
         then [None; Some 6%Q; Some 6%Q; Some 6%Q; None; Some 6%Q; Some 6%Q; Some 6%Q]
    else if String.eqb n "Temperature" then None :: full 7
    else full 8).



(** Every column has one cell per row label. *)
Definition rectangular (df : DataFrame) : bool :=
  forallb (fun nc => Nat.eqb (length (snd nc)) (shape0 df)) (cols df).

(** A transformer that raises nothing but [ValueError]. *)
Definition raises_only_ValueError (trans : ndarray -> outcome ndarray) : Prop :=
  forall X e, trans X = Raise e -> e = ValueError.

(** The statistic an imputer fills a column with, 0 when it has none. *)
Definition fill_of (imp : SimpleImputer) (c : list cell) : Q :=
  match statistic imp c with Some v => v | None => 0%Q end.

(** Two rows, none with a target. *)
Definition no_target : DataFrame :=
  sample 2 (fun n => if String.eqb n "Salinity" then [None; None] else full 2).

(** Three rows; ["Temperature"] is known only in the row that has no
    ["Salinity"]. *)
Definition late_feature : DataFrame :=
  sample 3 (fun n => if String.eqb n "Temperature" then [None; None; Some 1%Q]
                     else if String.eqb n "Salinity"
                          then [Some 1%Q; Some 2%Q; None]
                          else full 3).

(** A file with a single column. *)
Definition one_column : DataFrame :=
  mkDataFrame (RangeIndex 1) [("Cst_Cnt", [Some 1%Q])].

(** Labels pairwise distinct, decided. *)
Fixpoint distinct_labels (l : list string) : bool :=
  match l with
  | [] => true
  | x :: l' => negb (mem x l') && distinct_labels l'
  end.

(* ================================================================== *)
(** ** The store: basic facts *)
(* ================================================================== *)

Local Open Scope nat_scope.

Lemma nth_error_fresh (h l : list DataFrame) (k : nat) :
  nth_error (h ++ l) (length h + k) = nth_error l k.
Proof.
  induction h as [|x h IH]; simpl; auto.
Qed.

Lemma nth_error_fresh0 (h l : list DataFrame) :
  nth_error (h ++ l) (length h) = nth_error l 0.
Proof.
  rewrite <- (Nat.add_0_r (length h)) at 1. apply nth_error_fresh.
Qed.

Lemma update_fresh (h l : list DataFrame) (k : nat) (df : DataFrame) :
  update (length h + k) df (h ++ l) = h ++ update k df l.
Proof.
  induction h as [|x h IH]; simpl.
  - reflexivity.
  - now rewrite IH.
Qed.

Lemma update_fresh0 (h l : list DataFrame) (df : DataFrame) :
  update (length h) df (h ++ l) = h ++ update 0 df l.
Proof.
  rewrite <- (Nat.add_0_r (length h)) at 1. apply update_fresh.
Qed.

(* ================================================================== *)
(** ** The library model on small inputs *)
(* ================================================================== *)

Example round2_ties_to_even :
  Num.round2 (12345 # 1000) = Qred (1234 # 100) /\
  Num.round2 (12355 # 1000) = Qred (1236 # 100) /\
  Num.round2 (100 # 3) = (3333 # 100)%Q.
Proof. repeat split. Qed.

Example mean_imputation :
  SimpleImputer_fit_transform (mkSimpleImputer "mean" None)
                              (mkArray 3 [[Some 1%Q; None; Some 3%Q]]) =
  Return (mkArray 3 [[Some 1%Q; Some 2%Q; Some 3%Q]]).
Proof. reflexivity. Qed.

Example median_imputation :
  SimpleImputer_fit_transform (mkSimpleImputer "median" None)
                              (mkArray 5 [[Some 1%Q; None; Some 2%Q; Some 4%Q; Some 3%Q]]) =
  Return (mkArray 5 [[Some 1%Q; Some (5 # 2)%Q; Some 2%Q; Some 4%Q; Some 3%Q]]).
Proof. reflexivity. Qed.

Example most_frequent_takes_smallest_of_ties :
  SimpleImputer_fit_transform (mkSimpleImputer "most_frequent" None)
                              (mkArray 5 [[Some 2%Q; Some 1%Q; Some 2%Q; Some 1%Q; None]]) =
  Return (mkArray 5 [[Some 2%Q; Some 1%Q; Some 2%Q; Some 1%Q; Some 1%Q]]).
Proof. reflexivity. Qed.

Example column_without_observation_is_discarded :
  SimpleImputer_fit_transform (mkSimpleImputer "mean" None)
                              (mkArray 2 [[None; None]; [Some 1%Q; None]]) =
  Return (mkArray 2 [[Some 1%Q; Some 1%Q]]).
Proof. reflexivity. Qed.

Example unknown_strategy_is_rejected :
  SimpleImputer_fit_transform (mkSimpleImputer "mode" None)
                              (mkArray 1 [[Some 1%Q]]) = Raise ValueError.
Proof. reflexivity. Qed.

(** The scenario of the specification: [0, 10, 20] becomes [0, 0.5, 1]. *)
Example normal_scaling :
  scaler_fit_transform Num.Qsqrt MinMaxScaler
                       (mkArray 3 [[Some 0%Q; Some 10%Q; Some 20%Q]]) =
  Return (mkArray 3 [[Some 0%Q; Some (1 # 2)%Q; Some 1%Q]]).
Proof. reflexivity. Qed.

Example standard_scaling :
  scaler_fit_transform Num.Qsqrt StandardScaler
                       (mkArray 2 [[Some 1%Q; Some 3%Q]; [Some 5%Q; Some 5%Q]]) =
  Return (mkArray 2 [[Some (-1)%Q; Some 1%Q]; [Some 0%Q; Some 0%Q]]).
Proof. vm_compute. reflexivity. Qed.

(** [pd.concat] aligns on the row labels: frames whose labels differ are
    not put side by side, which is why lines 176-177 reset both indexes. *)
Example concat_aligns_on_labels :
  concat_axis1 (mkDataFrame [2%Z; 3%Z] [("Depth ID", [Some 1%Q; Some 2%Q])])
               (mkDataFrame [0%Z; 1%Z] [("Salinity", [Some 5%Q; Some 6%Q])]) =
  mkDataFrame [2%Z; 3%Z; 0%Z; 1%Z]
              [("Depth ID", [Some 1%Q; Some 2%Q; None; None]);
               ("Salinity", [None; None; Some 5%Q; Some 6%Q])].
Proof. reflexivity. Qed.

(* ================================================================== *)
(** ** Running a call *)
(* ================================================================== *)

(** Every sample table is a state the module reaches: it has the 74
    columns that line 58 renames. *)
Lemma loaded_sample (rows : nat) (f : string -> list cell) :
  loaded (sample rows f) = Return (store_of (sample rows f)).
Proof. reflexivity. Qed.

Ltac run_monad :=
  cbv beta iota delta [bind ret raise lift deref alloc assign inplace copy
                       assert heap disk fst snd].

Ltac heap_norm :=
  repeat first
    [ rewrite <- app_assoc
    | rewrite length_app
    | rewrite nth_error_fresh
    | rewrite nth_error_fresh0
    | rewrite update_fresh
    | rewrite update_fresh0
    | progress cbn [app length nth_error update Nat.add] ].

(** A call reads the object behind [bottle_df], returns or raises what
    [transform] says for it, and leaves a store that extends the one it
    started from. *)
Lemma preprocess_data_run sqrt thr ns cs fv sc fn (w : world) :
  match nth_error (heap w) bottle_df with
  | None => preprocess_data sqrt thr ns cs fv sc fn w = (Raise NameError, w)
  | Some src =>
      exists ext,
        preprocess_data sqrt thr ns cs fv sc fn w =
        (transform sqrt thr ns cs fv sc src, mkWorld (heap w ++ ext) (disk w))
  end.
Proof.
  destruct w as [h d]. unfold preprocess_data. run_monad.
  destruct (nth_error h bottle_df) as [src|] eqn:Hsrc; [|reflexivity].
  heap_norm. unfold transform, pruned.
  destruct (dropna "Salinity" (drop (columns_to_drop thr src) src)) as [d1|e].
  2:{ eexists. cbn [obind]. reflexivity. }
  heap_norm. cbn [obind]. unfold prepared_bottle.
  destruct (getitem (num_attributes _) _) as [nums|e]; cbn [obind].
  2:{ eexists; reflexivity. }
  destruct (getitem (cat_attributes _) _) as [cats|e]; cbn [obind].
  2:{ eexists; reflexivity. }
  destruct (String.eqb sc "standard");
    [| destruct (String.eqb sc "normal")]; cbn [obind].
  3:{ eexists; reflexivity. }
  all: destruct (ColumnTransformer_fit_transform _ _) as [X|e]; cbn [obind];
    [| eexists; reflexivity].
  all: destruct (DataFrame_of_array _ _) as [df|e]; cbn [obind];
    [| eexists; reflexivity].
  all: heap_norm.
  all: destruct (all_isna_sum _); cbn [negb]; eexists; reflexivity.
Qed.

Lemma preprocess_data_result sqrt thr ns cs fv sc fn (w : world) :
  fst (preprocess_data sqrt thr ns cs fv sc fn w) =
  match nth_error (heap w) bottle_df with
  | None => Raise NameError
  | Some src => transform sqrt thr ns cs fv sc src
  end.
Proof.
  pose proof (preprocess_data_run sqrt thr ns cs fv sc fn w) as H.
  destruct (nth_error (heap w) bottle_df).
  - destruct H as [ext ->]. reflexivity.
  - now rewrite H.
Qed.

Lemma preprocess_data_store sqrt thr ns cs fv sc fn (w : world) :
  exists ext,
    snd (preprocess_data sqrt thr ns cs fv sc fn w) =
    mkWorld (heap w ++ ext) (disk w).
Proof.
  pose proof (preprocess_data_run sqrt thr ns cs fv sc fn w) as H.
  destruct (nth_error (heap w) bottle_df).
  - destruct H as [ext ->]. now exists ext.
  - rewrite H. exists []. destruct w. cbn. now rewrite app_nil_r.
Qed.

(** The bound object survives any extension of the store. *)
Lemma bottle_df_extended (h ext : list DataFrame) :
  h <> [] -> nth_error (h ++ ext) bottle_df = nth_error h bottle_df.
Proof.
  destruct h; [congruence | reflexivity].
Qed.

Lemma bottle_df_preserved sqrt thr ns cs fv sc fn (w : world) :
  nth_error (heap (snd (preprocess_data sqrt thr ns cs fv sc fn w))) bottle_df =
  nth_error (heap w) bottle_df.
Proof.
  pose proof (preprocess_data_run sqrt thr ns cs fv sc fn w) as H.
  destruct (nth_error (heap w) bottle_df) as [src|] eqn:Hsrc.
  - destruct H as [ext ->]. cbn [snd heap].
    rewrite bottle_df_extended; [assumption|].
    intros Hnil. rewrite Hnil in Hsrc. discriminate.
  - now rewrite H.
Qed.

(* ------------------------------------------------------------------ *)
(** *** The source table is never mutated *)

(** Without the copy of line 106 the in-place calls would reach the
    source: [inplace] on [bottle_df] itself replaces the shared object. *)
Example inplace_reaches_shared_object :
  let src := mkDataFrame [0%Z] [("Depth", [None]); ("Salinity", [Some 1%Q])] in
  heap (snd (inplace bottle_df (fun df => Return (drop ["Depth"] df))
                     (mkWorld [src] []))) =
  [mkDataFrame [0%Z] [("Salinity", [Some 1%Q])]].
Proof. reflexivity. Qed.

(** C9: a call never mutates the shared source table.  Whether it returns
    or raises, the object behind [bottle_df] is the one found at entry, and
    so is every object that existed before the call: the call works on
    objects it allocated itself. *)
Theorem source_table_not_mutated sqrt thr ns cs fv sc fn (w : world) :
  let w' := snd (preprocess_data sqrt thr ns cs fv sc fn w) in
  nth_error (heap w') bottle_df = nth_error (heap w) bottle_df /\
  firstn (length (heap w)) (heap w') = heap w.
Proof.
  cbn zeta. split.
  - apply bottle_df_preserved.
  - destruct (preprocess_data_store sqrt thr ns cs fv sc fn w) as [ext ->].
    cbn [heap]. rewrite firstn_app, Nat.sub_diag, firstn_all. cbn.
    apply app_nil_r.
Qed.

(* ------------------------------------------------------------------ *)
(** *** Determinism *)

(** Two stores that bind [bottle_df] to the same table give the same
    outcome. *)
Lemma outcome_depends_on_source sqrt thr ns cs fv sc fn fn' (w1 w2 : world) :
  nth_error (heap w1) bottle_df = nth_error (heap w2) bottle_df ->
  fst (preprocess_data sqrt thr ns cs fv sc fn w1) =
  fst (preprocess_data sqrt thr ns cs fv sc fn' w2).
Proof.
  intros H. rewrite !preprocess_data_result, H. reflexivity.
Qed.

(** C8: the transform is deterministic and can be re-run.  A second call
    with the same parameters, made in the store the first call left behind,
    returns the same table or raises the same exception as the first. *)
Theorem rerun_gives_same_output sqrt thr ns cs fv sc fn (w : world) :
  let call := preprocess_data sqrt thr ns cs fv sc fn in
  fst (call (snd (call w))) = fst (call w).
Proof.
  cbn zeta. apply outcome_depends_on_source, bottle_df_preserved.
Qed.

(* ------------------------------------------------------------------ *)
(** *** The file name *)

(** C10: [file_name] has no effect.  Calls that differ only in the file
    name return the same outcome and leave the same store, and no call
    writes a file: the disk after the call is the disk before it. *)
Theorem file_name_has_no_effect sqrt thr ns cs fv sc (fn fn' : string) (w : world) :
  preprocess_data sqrt thr ns cs fv sc fn w =
  preprocess_data sqrt thr ns cs fv sc fn' w /\
  disk (snd (preprocess_data sqrt thr ns cs fv sc fn w)) = disk w.
Proof.
  split.
  - reflexivity.
  - destruct (preprocess_data_store sqrt thr ns cs fv sc fn w) as [ext ->].
    reflexivity.
Qed.

(* ================================================================== *)
(** ** The column pruner *)
(* ================================================================== *)

Lemma mem_In (s : string) (l : list string) : mem s l = true <-> In s l.
Proof.
  unfold mem. rewrite existsb_exists. split.
  - intros [x [Hx He]]. apply String.eqb_eq in He. now subst.
  - intros H. exists s. split; [assumption | apply String.eqb_refl].
Qed.

Lemma get_column_In (l : string) (cs : list (string * list cell)) (c : list cell) :
  get_column l cs = Some c -> In (l, c) cs.
Proof.
  induction cs as [|[n c'] cs IH]; simpl; [discriminate|].
  destruct (String.eqb l n) eqn:E.
  - intros [= ->]. apply String.eqb_eq in E. subst. now left.
  - intros H. right. now apply IH.
Qed.

Lemma get_column_None (l : string) (cs : list (string * list cell)) :
  get_column l cs = None <-> ~ In l (map fst cs).
Proof.
  induction cs as [|[n c'] cs IH]; simpl; [tauto|].
  destruct (String.eqb l n) eqn:E.
  - apply String.eqb_eq in E. subst. split; [discriminate | intros H; tauto].
  - apply String.eqb_neq in E. rewrite IH. split.
    + intros H [H'|H']; [congruence | tauto].
    + tauto.
Qed.

(** With distinct labels, a label selects its own column. *)
Lemma get_column_NoDup (cs : list (string * list cell)) (n : string) (c : list cell) :
  NoDup (map fst cs) -> In (n, c) cs -> get_column n cs = Some c.
Proof.
  induction cs as [|[n' c'] cs IH]; simpl; [tauto|].
  intros Hnd [H|H].
  - injection H as -> ->. now rewrite String.eqb_refl.
  - inversion Hnd as [|? ? Hnot Hnd']; subst.
    destruct (String.eqb n n') eqn:E.
    + apply String.eqb_eq in E. subst. exfalso. apply Hnot.
      change n' with (fst (n', c)). now apply in_map.
    + now apply IH.
Qed.

(** The labels to drop are those of the columns whose rounded percentage
    of missing values is above the threshold. *)
Lemma columns_to_drop_In (thr : Q) (data : DataFrame) (n : string) :
  In n (columns_to_drop thr data) <->
  exists c, In (n, c) (cols data) /\
            gt (percent (isna_sum c) (shape0 data)) thr = true.
Proof.
  unfold columns_to_drop, missing. rewrite in_map_iff. split.
  - intros [[n' [k p]] [Hn Hin]]. cbn in Hn. subst n'.
    apply filter_In in Hin. destruct Hin as [Hin Hgt]. cbn in Hgt.
    apply in_map_iff in Hin. destruct Hin as [[n' c] [Heq Hin]].
    cbn in Heq. injection Heq as -> <- <-. now exists c.
  - intros [c [Hin Hgt]].
    exists (n, (isna_sum c, percent (isna_sum c) (shape0 data))).
    split; [reflexivity|]. apply filter_In. split; [|assumption].
    apply in_map_iff. now exists (n, c).
Qed.

Lemma names_drop (labels : list string) (df : DataFrame) :
  names (drop labels df) = filter (fun n => negb (mem n labels)) (names df).
Proof.
  unfold names, drop. cbn [cols].
  induction (cols df) as [|[n c] cs IH]; cbn; [reflexivity|].
  destruct (mem n labels); cbn; now rewrite IH.
Qed.

(** Once the target's label is among the dropped ones, line 125 raises
    [KeyError] and so does the call. *)
Lemma target_dropped_raises sqrt thr ns cs fv sc (src : DataFrame) :
  In "Salinity" (columns_to_drop thr src) ->
  mem "Salinity" (names (drop (columns_to_drop thr src) src)) = false /\
  transform sqrt thr ns cs fv sc src = Raise (KeyError "Salinity").
Proof.
  intros Hin.
  assert (Hno : ~ In "Salinity" (names (drop (columns_to_drop thr src) src))).
  { rewrite names_drop, filter_In. intros [_ H].
    apply mem_In in Hin. now rewrite Hin in H. }
  split.
  - destruct (mem _ _) eqn:E; [|reflexivity].
    apply mem_In in E. contradiction.
  - unfold transform, pruned, dropna.
    apply get_column_None in Hno. now rewrite Hno.
Qed.

Lemma distinct_labels_NoDup (l : list string) :
  distinct_labels l = true -> NoDup l.
Proof.
  induction l as [|x l IH]; cbn; intros H; constructor.
  - apply andb_prop in H. destruct H as [H _].
    intros Hin. apply mem_In in Hin. now rewrite Hin in H.
  - apply IH. apply andb_prop in H. tauto.
Qed.

(** With distinct labels, a column is dropped exactly when its own
    percentage is above the threshold. *)
Lemma dropped_iff_above (thr : Q) (data : DataFrame) (nc : string * list cell) :
  NoDup (names data) -> In nc (cols data) ->
  mem (fst nc) (columns_to_drop thr data) =
  gt (percent (isna_sum (snd nc)) (shape0 data)) thr.
Proof.
  intros Hnd Hin. destruct nc as [n c]. cbn [fst snd].
  destruct (gt (percent (isna_sum c) (shape0 data)) thr) eqn:Hgt.
  - apply mem_In, columns_to_drop_In. now exists c.
  - destruct (mem n (columns_to_drop thr data)) eqn:Hm; [|reflexivity].
    apply mem_In, columns_to_drop_In in Hm. destruct Hm as [c' [Hin' Hgt']].
    apply (get_column_NoDup _ _ _ Hnd) in Hin, Hin'.
    rewrite Hin in Hin'. injection Hin' as <-. congruence.
Qed.




(* ================================================================== *)
(** ** The target column and the threshold *)
(* ================================================================== *)

(** C5, as the code has it: when the rounded percentage of missing values
    of ["Salinity"] is above the threshold, the pruner drops the target
    like any other column, and the call then raises [KeyError] at the row
    filter of line 125; no table is returned. *)
Theorem target_above_threshold_raises_KeyError
        sqrt thr ns cs fv sc fn (w : world) (src : DataFrame) (c : list cell) :
  nth_error (heap w) bottle_df = Some src ->
  get_column "Salinity" (cols src) = Some c ->
  gt (percent (isna_sum c) (shape0 src)) thr = true ->
  mem "Salinity" (names (drop (columns_to_drop thr src) src)) = false /\
  fst (preprocess_data sqrt thr ns cs fv sc fn w) = Raise (KeyError "Salinity").
Proof.
  intros Hsrc Hc Hgt.
  rewrite preprocess_data_result, Hsrc.
  apply target_dropped_raises, columns_to_drop_In.
  exists c. split; [now apply get_column_In | assumption].
Qed.

Lemma target_above_threshold_raises_KeyError_witness :
  nth_error (heap (store_of sparse_target)) bottle_df = Some sparse_target /\
  get_column "Salinity" (cols sparse_target) = Some [None; None; Some 1%Q] /\
  gt (percent (isna_sum [None; None; Some 1%Q]) (shape0 sparse_target)) 50 = true /\
  fst (preprocess_data Num.Qsqrt 50 "mean" "most_frequent" (-999) "standard"
                       "prepared_data.csv" (store_of sparse_target)) =
  Raise (KeyError "Salinity").
Proof.
  split; [reflexivity|]. split; [reflexivity|]. split; [reflexivity|].
  apply (target_above_threshold_raises_KeyError
           Num.Qsqrt 50 "mean" "most_frequent" (-999) "standard"
           "prepared_data.csv" (store_of sparse_target) sparse_target
           [None; None; Some 1%Q]); reflexivity.
Defined.

(** C5 as worded fails: with threshold 50 and a target missing 2 values
    out of 3, the pruner does drop ["Salinity"], and the call fails with the
    [KeyError] of the row filter, which is not a configuration error. *)
Lemma target_is_dropped_by_missingness :
  (50 < spec_percent (isna_sum [None; None; Some 1%Q]) (shape0 sparse_target))%Q /\
  get_column "Salinity" (cols sparse_target) = Some [None; None; Some 1%Q] /\
  mem "Salinity" (names (drop (columns_to_drop 50 sparse_target) sparse_target)) = false /\
  fst (preprocess_data Num.Qsqrt 50 "mean" "most_frequent" (-999) "standard"
                       "prepared_data.csv" (store_of sparse_target)) =
  Raise (KeyError "Salinity") /\
  spec_configuration_error (KeyError "Salinity") = false.
Proof.
  repeat split.
Qed.

(* ================================================================== *)
(** ** A threshold that drops every feature column *)
(* ================================================================== *)

Lemma In_skipn {A : Type} (k : nat) (l : list A) (x : A) :
  In x (skipn k l) -> In x l.
Proof.
  revert l. induction k as [|k IH]; intros [|y l]; cbn; auto.
Qed.

Lemma map_skipn {A B : Type} (f : A -> B) (k : nat) (l : list A) :
  map f (skipn k l) = skipn k (map f l).
Proof.
  revert l. induction k as [|k IH]; intros [|y l]; cbn; auto.
Qed.

(** C6, as the code has it: the target is one of the feature columns, so a
    threshold that drops every feature column drops the target too, and
    the call raises [KeyError] at line 125 instead of returning the
    identifier columns. *)
Theorem all_features_dropped_raises_KeyError
        sqrt thr ns cs fv sc fn (w : world) (src : DataFrame) :
  nth_error (heap w) bottle_df = Some src ->
  names src = columns ->
  (forall nc, In nc (skipn 4 (cols src)) ->
              gt (percent (isna_sum (snd nc)) (shape0 src)) thr = true) ->
  fst (preprocess_data sqrt thr ns cs fv sc fn w) = Raise (KeyError "Salinity").
Proof.
  intros Hsrc Hnames Hall.
  rewrite preprocess_data_result, Hsrc.
  apply target_dropped_raises, columns_to_drop_In.
  assert (Hin : In "Salinity" (map fst (skipn 4 (cols src)))).
  { rewrite map_skipn. fold (names src). rewrite Hnames. cbn. tauto. }
  apply in_map_iff in Hin. destruct Hin as [[n c] [Hn Hin]].
  cbn in Hn. subst n. exists c. split.
  - now apply In_skipn in Hin.
  - exact (Hall _ Hin).
Qed.

Lemma gt_all_sound (thr : Q) (rows : nat) (cs : list (string * list cell)) :
  forallb (fun nc => gt (percent (isna_sum (snd nc)) rows) thr) cs = true ->
  forall nc, In nc cs -> gt (percent (isna_sum (snd nc)) rows) thr = true.
Proof.
  intros H. now apply forallb_forall.
Qed.

Lemma all_features_dropped_raises_KeyError_witness :
  nth_error (heap (store_of sparse_features)) bottle_df = Some sparse_features /\
  names sparse_features = columns /\
  fst (preprocess_data Num.Qsqrt 10 "mean" "most_frequent" (-999) "standard"
                       "prepared_data.csv" (store_of sparse_features)) =
  Raise (KeyError "Salinity").
Proof.
  split; [reflexivity|]. split; [reflexivity|].
  apply (all_features_dropped_raises_KeyError
           Num.Qsqrt 10 "mean" "most_frequent" (-999) "standard"
           "prepared_data.csv" (store_of sparse_features) sparse_features).
  - reflexivity.
  - reflexivity.
  - apply gt_all_sound. vm_compute. reflexivity.
Defined.

(** C6 as worded fails: at threshold 10 every feature column of
    [sparse_features] (half of each is missing) is dropped and the four
    identifier columns are all that is left, yet the call does not return
    them: it raises [KeyError]. *)
Lemma no_feature_left_is_an_error :
  names (drop (columns_to_drop 10 sparse_features) sparse_features) =
  ["Cast Count"; "Bottle Count"; "Station ID"; "Depth ID"] /\
  fst (preprocess_data Num.Qsqrt 10 "mean" "most_frequent" (-999) "standard"
                       "prepared_data.csv" (store_of sparse_features)) =
  Raise (KeyError "Salinity").
Proof.
  split; vm_compute; reflexivity.
Qed.

(* ================================================================== *)
(** ** The final check *)
(* ================================================================== *)





(* ================================================================== *)
(** ** The attribute classifier *)
(* ================================================================== *)

Lemma dict_set_fresh (k : string) (v : nat) (d : dict) :
  ~ In k (keys d) -> dict_set k v d = d ++ [(k, v)].
Proof.
  induction d as [|[k' v'] d IH]; cbn; intros H; [reflexivity|].
  destruct (String.eqb k k') eqn:E.
  - apply String.eqb_eq in E. subst. tauto.
  - rewrite IH; [reflexivity | tauto].
Qed.

Lemma uniques_fold (new_data : DataFrame) (ns : list string) (u : dict) :
  NoDup ns ->
  (forall n, In n ns -> ~ In n (keys u)) ->
  (forall n, In n ns -> In n (names new_data)) ->
  fold_left (fun u column =>
               match get_column column (cols new_data) with
               | Some c => dict_set column (nunique c) u
               | None => u
               end) ns u =
  u ++ map (fun n => (n, unique_count new_data n)) ns.
Proof.
  revert u. induction ns as [|n ns IH]; intros u Hnd Hfresh Hin; cbn.
  - now rewrite app_nil_r.
  - inversion Hnd as [|? ? Hn Hnd']; subst.
    assert (Hc : exists c, get_column n (cols new_data) = Some c).
    { destruct (get_column n (cols new_data)) eqn:E; [eauto|].
      apply get_column_None in E. exfalso. apply E, Hin. now left. }
    destruct Hc as [c Hc]. unfold unique_count at 1. rewrite Hc.
    rewrite dict_set_fresh by (apply Hfresh; now left).
    rewrite IH; auto.
    + now rewrite <- app_assoc.
    + intros m Hm. unfold keys. rewrite map_app, in_app_iff. cbn.
      intros [H|[H|[]]].
      * apply (Hfresh m); [now right | exact H].
      * subst. contradiction.
    + intros m Hm. apply Hin. now right.
Qed.

(** With distinct labels the dictionary has one entry per column, in the
    order of the columns. *)
Lemma uniques_spec (new_data : DataFrame) :
  NoDup (names new_data) ->
  uniques new_data = map (fun n => (n, unique_count new_data n)) (names new_data).
Proof.
  intros Hnd. unfold uniques. rewrite uniques_fold; auto.
Qed.

Lemma dict_get_map (f : string -> nat) (ns : list string) (n : string) :
  In n ns -> dict_get n (map (fun n => (n, f n)) ns) = Some (f n).
Proof.
  induction ns as [|m ns IH]; cbn; [tauto|].
  intros H. destruct (String.eqb n m) eqn:E.
  - apply String.eqb_eq in E. now subst.
  - apply String.eqb_neq in E. apply IH. destruct H; congruence.
Qed.

Lemma keys_map (f : string -> nat) (ns : list string) :
  keys (map (fun n => (n, f n)) ns) = ns.
Proof.
  unfold keys. rewrite map_map. cbn. apply map_id.
Qed.

Lemma names_dropna (l : string) (df d : DataFrame) :
  dropna l df = Return d -> names d = names df.
Proof.
  unfold dropna. destruct (get_column l (cols df)); [|discriminate].
  intros [= <-]. unfold names. cbn [cols]. rewrite map_map. reflexivity.
Qed.

Lemma NoDup_skipn {A : Type} (k : nat) (l : list A) :
  NoDup l -> NoDup (skipn k l).
Proof.
  intros H. rewrite <- (firstn_skipn k l) in H.
  now apply NoDup_app_remove_l in H.
Qed.

Lemma num_attributes_spec (new_data : DataFrame) :
  NoDup (names new_data) ->
  num_attributes (uniques new_data) =
  filter (fun n => 6 <? unique_count new_data n) (names new_data).
Proof.
  intros Hnd. unfold num_attributes. rewrite (uniques_spec _ Hnd), keys_map.
  apply filter_ext_in. intros n Hn. now rewrite dict_get_map.
Qed.




(** On [mixed] the two flags are categorical and the 68 other feature
    columns are continuous. *)
Example mixed_is_classified :
  match pruned 70 mixed with
  | Return d =>
      let u := uniques (iloc_from 4 d) in
      cat_attributes u = ["Record Indicator"; "Salinity Quality"] /\
      length (num_attributes u) = 68 /\
      firstn 3 (num_attributes u) = ["Depth"; "Temperature"; "Salinity"]
  | Raise _ => False
  end.
Proof. vm_compute. repeat split. Qed.

(* ================================================================== *)
(** ** A call that returns *)
(* ================================================================== *)

Lemma Return_inj {A : Type} (a b : A) : Return a = Return b -> a = b.
Proof. congruence. Qed.

Lemma names_pruned (thr : Q) (src d : DataFrame) :
  pruned thr src = Return d ->
  names d = filter (fun n => negb (mem n (columns_to_drop thr src))) (names src).
Proof.
  intros Hd. unfold pruned in Hd.
  rewrite (names_dropna _ _ _ Hd). apply names_drop.
Qed.

Lemma fit_transform_each_cons name trans (c : string) (cs : list string) ts X :
  fit_transform_each ((name, trans, c :: cs) :: ts) X =
  obind (getitem (c :: cs) X) (fun Xs =>
  obind (trans (mkArray (shape0 X) (map snd Xs))) (fun Y =>
  obind (fit_transform_each ts X) (fun rest =>
  Return (acols Y ++ rest)))).
Proof. reflexivity. Qed.

Lemma getitem_inv (ls : list string) (df : DataFrame) r :
  getitem ls df = Return r ->
  r = map (fun l => (l, column_of (cols df) l)) ls /\
  (forall l, In l ls -> get_column l (cols df) = Some (column_of (cols df) l)).
Proof.
  revert r. induction ls as [|l ls IH]; cbn; intros r H.
  - injection H as <-. split; [reflexivity | tauto].
  - unfold column_of at 1 2. destruct (get_column l (cols df)) as [c|] eqn:E; [|discriminate].
    destruct (getitem ls df) as [r'|e]; cbn in H; [|discriminate].
    injection H as <-. destruct (IH r' eq_refl) as [-> Hall]. split.
    + reflexivity.
    + intros l' [<-|Hin]; [|now apply Hall].
      unfold column_of. now rewrite E.
Qed.

Lemma get_column_map (f : string -> list cell) (ls : list string) (n : string) :
  In n ls -> get_column n (map (fun l => (l, f l)) ls) = Some (f n).
Proof.
  induction ls as [|m ls IH]; cbn; [tauto|].
  intros H. destruct (String.eqb n m) eqn:E.
  - apply String.eqb_eq in E. now subst.
  - apply String.eqb_neq in E. apply IH. destruct H; congruence.
Qed.

Lemma get_column_app (n : string) (a b : list (string * list cell)) :
  get_column n (a ++ b) =
  match get_column n a with Some c => Some c | None => get_column n b end.
Proof.
  induction a as [|[m c] a IH]; cbn; [reflexivity|].
  destruct (String.eqb n m); [reflexivity | exact IH].
Qed.

Lemma getitem_map (f : string -> list cell) (ls : list string) (ix : list Z)
      (rest : list (string * list cell)) :
  getitem ls (mkDataFrame ix (map (fun l => (l, f l)) ls ++ rest)) =
  Return (map (fun l => (l, f l)) ls).
Proof.
  assert (H : forall ls', (forall l, In l ls' -> In l ls) ->
            getitem ls' (mkDataFrame ix (map (fun l => (l, f l)) ls ++ rest)) =
            Return (map (fun l => (l, f l)) ls')).
  { induction ls' as [|l ls' IH]; intros Hsub; cbn; [reflexivity|].
    rewrite get_column_app, get_column_map by (apply Hsub; now left).
    rewrite IH; [reflexivity|]. intros l' Hl'. apply Hsub. now right. }
  apply H. auto.
Qed.

Lemma Zlist_eqb_refl (ix : list Z) : Zlist_eqb ix ix = true.
Proof.
  unfold Zlist_eqb. destruct (list_eq_dec Z.eq_dec ix ix); congruence.
Qed.

Lemma concat_axis1_aligned (ix : list Z) (a b : list (string * list cell)) :
  concat_axis1 (mkDataFrame ix a) (mkDataFrame ix b) = mkDataFrame ix (a ++ b).
Proof.
  unfold concat_axis1. cbn [index cols]. now rewrite Zlist_eqb_refl.
Qed.

Lemma length_RangeIndex (n : nat) : length (RangeIndex n) = n.
Proof.
  unfold RangeIndex. now rewrite length_map, length_seq.
Qed.

Lemma check_array_inv (X X' : ndarray) :
  check_array X = Return X' -> X' = X.
Proof.
  unfold check_array. destruct (nrows X =? 0); [discriminate|].
  destruct (length (acols X) =? 0); [discriminate|]. congruence.
Qed.

(** A call that returns went through every stage: the returned table is
    the first four columns of the pruned table followed by the stacked
    output of the column transformer, under fresh row labels. *)
Lemma transform_inv sqrt thr ns cs fv sc (src t : DataFrame) :
  transform sqrt thr ns cs fv sc src = Return t ->
  exists d scaler X,
    let new_data := iloc_from 4 d in
    let u := uniques new_data in
    let select ls := map (fun l => (l, column_of (cols new_data) l)) ls in
    pruned thr src = Return d /\
    (sc = "standard" /\ scaler = StandardScaler \/
     sc = "normal" /\ scaler = MinMaxScaler) /\
    ColumnTransformer_fit_transform
      [("num",
        Pipeline sqrt (if String.eqb ns "constant"
                       then mkSimpleImputer ns (Some fv)
                       else mkSimpleImputer ns None) scaler,
        num_attributes u);
       ("cat", SimpleImputer_fit_transform (mkSimpleImputer cs None),
        cat_attributes u)]
      (mkDataFrame (index d)
                   (select (num_attributes u) ++ select (cat_attributes u))) =
    Return X /\
    t = mkDataFrame (RangeIndex (shape0 d))
                    (firstn 4 (cols d) ++
                     combine (num_attributes u ++ cat_attributes u) (acols X)).
Proof.
  intros Ht. unfold transform in Ht.
  destruct (pruned thr src) as [d|e] eqn:Hd; cbn [obind] in Ht; [|discriminate].
  unfold prepared_bottle in Ht.
  set (nd := iloc_from 4 d) in *. set (u := uniques nd) in *.
  destruct (getitem (num_attributes u) nd) as [nums|e] eqn:Hnums;
    cbn [obind] in Ht; [|discriminate].
  destruct (getitem (cat_attributes u) nd) as [cats|e] eqn:Hcats;
    cbn [obind] in Ht; [|discriminate].
  apply getitem_inv in Hnums. destruct Hnums as [-> _].
  apply getitem_inv in Hcats. destruct Hcats as [-> _].
  rewrite concat_axis1_aligned in Ht.
  assert (Hsc : exists scaler,
             (sc = "standard" /\ scaler = StandardScaler \/
              sc = "normal" /\ scaler = MinMaxScaler) /\
             (if String.eqb sc "standard" then Return StandardScaler
              else if String.eqb sc "normal" then Return MinMaxScaler
                   else Raise (UnboundLocalError "scaler")) = Return scaler).
  { destruct (String.eqb sc "standard") eqn:E1.
    - apply String.eqb_eq in E1. exists StandardScaler. tauto.
    - destruct (String.eqb sc "normal") eqn:E2.
      + apply String.eqb_eq in E2. exists MinMaxScaler. tauto.
      + cbn [obind] in Ht. discriminate. }
  destruct Hsc as [scaler [Hsc Hscaler]]. rewrite Hscaler in Ht. cbn [obind] in Ht.
  destruct (ColumnTransformer_fit_transform _ _) as [X|e] eqn:HX;
    cbn [obind] in Ht; [|discriminate].
  exists d, scaler, X. cbn zeta. fold nd. fold u.
  split; [reflexivity|]. split; [exact Hsc|]. split; [exact HX|].
  assert (Hrows : nrows X = length (index d)).
  { unfold ColumnTransformer_fit_transform in HX.
    destruct (fit_transform_each _ _); cbn [obind] in HX; [|discriminate].
    apply Return_inj in HX. subst X. reflexivity. }
  unfold DataFrame_of_array in Ht.
  destruct (Nat.eqb _ _); cbn [obind] in Ht; [|discriminate].
  unfold reset_index, iloc_upto, shape0 in Ht. cbn [index cols] in Ht.
  rewrite length_RangeIndex, Hrows, concat_axis1_aligned in Ht.
  destruct (all_isna_sum _); [discriminate|]. apply Return_inj in Ht. now subst t.
Qed.

(* ================================================================== *)
(** ** Constant imputation and scaling *)
(* ================================================================== *)

Lemma fillna_filled (v : Q) (c : list cell) :
  fillna v c = map (fun x => Some (filled v x)) c.
Proof.
  unfold fillna. apply map_ext. now intros [y|].
Qed.

Lemma observed_fillna (v : Q) (c : list cell) :
  observed (fillna v c) = map (filled v) c.
Proof.
  unfold fillna. induction c as [|[y|] c IH]; cbn; [reflexivity | now rewrite IH..].
Qed.

Lemma impute_constant (ns : string) (v : Q) (X : list (list cell)) :
  ns = "constant" ->
  impute (mkSimpleImputer ns (Some v)) X = map (fillna v) X.
Proof.
  intros ->. induction X as [|c X IH]; cbn; [reflexivity|]. now rewrite IH.
Qed.

Lemma Pipeline_constant_inv sqrt (fv : Q) (s : Scaler) (X Y : ndarray) :
  Pipeline sqrt (mkSimpleImputer "constant" (Some fv)) s X = Return Y ->
  Y = mkArray (nrows X)
              (map (fun c => scaler_transform (scaler_fit sqrt s (fillna fv c))
                                              (fillna fv c)) (acols X)).
Proof.
  unfold Pipeline, SimpleImputer_fit_transform. cbn [strategy].
  change (valid_strategy "constant") with true. cbv iota.
  destruct (check_array X) as [X'|e] eqn:E; cbn [obind]; [|discriminate].
  assert (X' = X) as ->.
  { now apply check_array_inv in E. }
  clear E. rewrite impute_constant by reflexivity.
  unfold scaler_fit_transform. cbn [obind]. cbv beta.
  destruct (check_array _) as [X'|e] eqn:E'; cbn [obind]; [|discriminate].
  assert (X' = mkArray (nrows X) (map (fillna fv) (acols X))) as ->.
  { now apply check_array_inv in E'. }
  cbn [nrows acols]. rewrite map_map. congruence.
Qed.

Lemma get_column_combine (h : string -> list cell) (ls ls' : list string)
      (rest : list (list cell)) (n : string) :
  In n ls ->
  get_column n (combine (ls ++ ls') (map h ls ++ rest)) = Some (h n).
Proof.
  induction ls as [|m ls IH]; cbn; [tauto|].
  intros H. destruct (String.eqb n m) eqn:E.
  - apply String.eqb_eq in E. now subst.
  - apply String.eqb_neq in E. apply IH. destruct H; congruence.
Qed.

Lemma get_column_skipn (k : nat) (cs : list (string * list cell)) (n : string) :
  NoDup (map fst cs) -> In n (map fst (skipn k cs)) ->
  get_column n (firstn k cs) = None /\
  get_column n cs = get_column n (skipn k cs).
Proof.
  intros Hnd Hin.
  assert (Hno : get_column n (firstn k cs) = None).
  { apply get_column_None. intros Hin'.
    rewrite <- (firstn_skipn k cs), map_app in Hnd.
    revert Hnd Hin Hin'. generalize (map fst (firstn k cs)) (map fst (skipn k cs)).
    intros a b Hnd Hb Ha. induction a as [|x a IH]; [contradiction|].
    cbn in Hnd. inversion Hnd as [|? ? Hx Hnd']; subst.
    destruct Ha as [->|Ha]; [|now apply IH].
    apply Hx, in_or_app. now right. }
  split; [assumption|].
  rewrite <- (firstn_skipn k cs) at 1. now rewrite get_column_app, Hno.
Qed.

(** C7: with [num_strategy = "constant"], whenever the call returns a
    table, each continuous column of that table is the scaler fitted on,
    and applied to, the column in which every blank has first been
    replaced by exactly [fill_value] and every other cell left as it was:
    the mean and variance, or the minimum and maximum, that the scaler uses
    are taken over a column in which [fill_value] stands at every formerly
    blank row. *)
Theorem constant_fill_precedes_scaling
        sqrt thr cs fv sc fn (w : world) (src t : DataFrame) :
  nth_error (heap w) bottle_df = Some src ->
  NoDup (names src) ->
  fst (preprocess_data sqrt thr "constant" cs fv sc fn w) = Return t ->
  exists d scaler,
    pruned thr src = Return d /\
    (sc = "standard" /\ scaler = StandardScaler \/
     sc = "normal" /\ scaler = MinMaxScaler) /\
    forall n c,
      In n (num_attributes (uniques (iloc_from 4 d))) ->
      get_column n (cols d) = Some c ->
      let values := map (filled fv) c in
      fillna fv c = map Some values /\
      get_column n (cols t) =
      Some (scaler_transform (scaler_fit sqrt scaler (fillna fv c)) (fillna fv c)) /\
      scaler_fit sqrt scaler (fillna fv c) =
      match scaler with
      | StandardScaler =>
          mkFitted (Num.mean values) (handle_zeros (sqrt (Num.variance values)))
      | MinMaxScaler =>
          mkFitted (Num.Qminimum values)
                   (handle_zeros (Qred (Num.Qmaximum values - Num.Qminimum values)))
      end.
Proof.
  intros Hsrc Hnd Ht.
  rewrite preprocess_data_result, Hsrc in Ht. apply transform_inv in Ht.
  destruct Ht as [d [scaler [X [Hd [Hsc [HX ->]]]]]].
  exists d, scaler. split; [exact Hd|]. split; [exact Hsc|].
  intros n c Hn Hc values.
  split; [unfold values; rewrite fillna_filled; now rewrite map_map|].
  split.
  2:{ destruct scaler; cbn [scaler_fit]; unfold StandardScaler_fit, MinMaxScaler_fit;
        now rewrite observed_fillna. }
  (* the label belongs to a column after the first four *)
  assert (Hndd : NoDup (names d)).
  { rewrite (names_pruned _ _ _ Hd). now apply NoDup_filter. }
  set (nd := iloc_from 4 d) in *. set (u := uniques nd) in *.
  assert (Hin : In n (map fst (skipn 4 (cols d)))).
  { assert (Hndn : NoDup (names nd)).
    { unfold names, nd, iloc_from. cbn [cols]. rewrite map_skipn.
      now apply NoDup_skipn. }
    unfold u in Hn. rewrite (num_attributes_spec nd Hndn) in Hn.
    now apply filter_In in Hn. }
  destruct (get_column_skipn 4 (cols d) n Hndd Hin) as [Hno Heq].
  (* the numerical pipeline ran on the selected columns *)
  change (String.eqb "constant" "constant") with true in HX. cbv iota in HX.
  unfold ColumnTransformer_fit_transform in HX.
  destruct (num_attributes u) as [|a num] eqn:Hnum; [contradiction|].
  rewrite fit_transform_each_cons, getitem_map in HX. cbn [obind] in HX.
  destruct (Pipeline _ _ _ _) as [Y|e] eqn:HY; cbn [obind] in HX; [|discriminate].
  apply Pipeline_constant_inv in HY. subst Y. cbn [acols nrows] in HX.
  destruct (fit_transform_each _ _) as [rest|e]; cbn [obind] in HX; [|discriminate].
  apply Return_inj in HX. subst X.
  (* its output column is found under the same label *)
  cbn [cols acols]. rewrite get_column_app, Hno, !map_map. cbn [snd].
  rewrite (get_column_combine
             (fun l => scaler_transform
                         (scaler_fit sqrt scaler (fillna fv (column_of (cols nd) l)))
                         (fillna fv (column_of (cols nd) l)))) by assumption.
  unfold column_of. change (cols nd) with (skipn 4 (cols d)).
  now rewrite <- Heq, Hc.
Qed.

Lemma constant_fill_precedes_scaling_witness :
  nth_error (heap (store_of mixed)) bottle_df = Some mixed /\
  NoDup (names mixed) /\
  exists t,
    fst (preprocess_data Num.Qsqrt 70 "constant" "most_frequent" (-999) "normal"
                         "prepared_data.csv" (store_of mixed)) = Return t /\
    exists d scaler,
      pruned 70 mixed = Return d /\
      ("normal" = "standard" /\ scaler = StandardScaler \/
       "normal" = "normal" /\ scaler = MinMaxScaler) /\
      forall n c,
        In n (num_attributes (uniques (iloc_from 4 d))) ->
        get_column n (cols d) = Some c ->
        let values := map (filled (-999)) c in
        fillna (-999) c = map Some values /\
        get_column n (cols t) =
        Some (scaler_transform (scaler_fit Num.Qsqrt scaler (fillna (-999) c))
                               (fillna (-999) c)) /\
        scaler_fit Num.Qsqrt scaler (fillna (-999) c) =
        match scaler with
        | StandardScaler =>
            mkFitted (Num.mean values)
                     (handle_zeros (Num.Qsqrt (Num.variance values)))
        | MinMaxScaler =>
            mkFitted (Num.Qminimum values)
                     (handle_zeros (Qred (Num.Qmaximum values - Num.Qminimum values)))
        end.
Proof.
  split; [reflexivity|]. split.
  - apply distinct_labels_NoDup. vm_compute. reflexivity.
  - eexists. split; [vm_compute; reflexivity|].
    apply (constant_fill_precedes_scaling
             Num.Qsqrt 70 "most_frequent" (-999)%Q "normal" "prepared_data.csv"
             (store_of mixed) mixed).
    + reflexivity.
    + apply distinct_labels_NoDup. vm_compute. reflexivity.
    + vm_compute. reflexivity.
Defined.

(** On [mixed] the blank of ["Temperature"] becomes -999 and is the
    minimum the scaler works with: it is sent to 0, and the observed 1..7
    to (x + 999) / 1006. *)
Example constant_fill_on_mixed :
  match fst (preprocess_data Num.Qsqrt 70 "constant" "most_frequent" (-999) "normal"
                             "prepared_data.csv" (store_of mixed)) with
  | Return t =>
      get_column "Temperature" (cols t) =
      Some (map (fun x => Some (Qred ((x + 999) / 1006)))
                [-999; 1; 2; 3; 4; 5; 6; 7]%Q)
  | Raise _ => False
  end.
Proof. vm_compute. reflexivity. Qed.

(* ================================================================== *)
(** ** Missing cells in the returned table *)
(* ================================================================== *)

Lemma isna_sum_fillna (v : Q) (c : list cell) : isna_sum (fillna v c) = 0.
Proof.
  unfold isna_sum, fillna. induction c as [|[y|] c IH]; cbn; auto.
Qed.

Lemma impute_complete (imp : SimpleImputer) (X : list (list cell)) (c : list cell) :
  In c (impute imp X) -> isna_sum c = 0.
Proof.
  induction X as [|x X IH]; cbn; [tauto|].
  destruct (statistic imp x) as [v|]; [|exact IH].
  intros [<-|H]; [apply isna_sum_fillna | now apply IH].
Qed.

Lemma isna_sum_scaler_transform (p : fitted) (c : list cell) :
  isna_sum (scaler_transform p c) = isna_sum c.
Proof.
  unfold isna_sum, scaler_transform.
  induction c as [|[y|] c IH]; cbn; auto.
Qed.

Lemma SimpleImputer_completes (imp : SimpleImputer) :
  completes (SimpleImputer_fit_transform imp).
Proof.
  intros X Y H c Hc. unfold SimpleImputer_fit_transform in H.
  destruct (valid_strategy (strategy imp)); [|discriminate].
  destruct (check_array X) as [X'|e]; cbn [obind] in H; [|discriminate].
  apply Return_inj in H. subst Y. cbn [acols] in Hc.
  now apply impute_complete in Hc.
Qed.

Lemma Pipeline_completes sqrt (imp : SimpleImputer) (s : Scaler) :
  completes (Pipeline sqrt imp s).
Proof.
  intros X Y H c Hc. unfold Pipeline in H.
  destruct (SimpleImputer_fit_transform imp X) as [X1|e] eqn:E;
    cbn [obind] in H; [|discriminate].
  unfold scaler_fit_transform in H.
  destruct (check_array X1) as [X2|e] eqn:E2; cbn [obind] in H; [|discriminate].
  apply check_array_inv in E2. subst X2.
  apply Return_inj in H. subst Y. cbn [acols] in Hc.
  apply in_map_iff in Hc. destruct Hc as [c0 [<- Hc0]].
  rewrite isna_sum_scaler_transform.
  exact (SimpleImputer_completes imp X X1 E c0 Hc0).
Qed.

Lemma fit_transform_each_complete
      (ts : list (string * (ndarray -> outcome ndarray) * list string))
      (X : DataFrame) (out : list (list cell)) :
  Forall (fun t => completes (snd (fst t))) ts ->
  fit_transform_each ts X = Return out ->
  forall c, In c out -> isna_sum c = 0.
Proof.
  intros Hall. revert out.
  induction Hall as [|[[name trans] sel] ts Htrans Hall IH]; intros out H c Hc.
  - cbn in H. apply Return_inj in H. subst out. contradiction.
  - cbn [fst snd] in Htrans. destruct sel as [|l sel].
    + cbn in H. exact (IH out H c Hc).
    + rewrite fit_transform_each_cons in H.
      destruct (getitem (l :: sel) X) as [Xs|e]; cbn [obind] in H; [|discriminate].
      destruct (trans _) as [Y|e] eqn:HY; cbn [obind] in H; [|discriminate].
      destruct (fit_transform_each ts X) as [rest|e];
        cbn [obind] in H; [|discriminate].
      apply Return_inj in H. subst out. apply in_app_or in Hc.
      destruct Hc as [Hc|Hc].
      * exact (Htrans _ _ HY c Hc).
      * exact (IH rest eq_refl c Hc).
Qed.

(** In a returned table every column after the first four of the pruned
    table is complete. *)
Lemma returned_features_complete sqrt thr ns cs fv sc (src t : DataFrame) :
  transform sqrt thr ns cs fv sc src = Return t ->
  exists d features,
    pruned thr src = Return d /\
    cols t = firstn 4 (cols d) ++ features /\
    forall nc, In nc features -> isna_sum (snd nc) = 0.
Proof.
  intros Ht. apply transform_inv in Ht.
  destruct Ht as [d [scaler [X [Hd [_ [HX ->]]]]]].
  exists d. eexists. split; [exact Hd|]. split; [reflexivity|].
  intros [n c] Hin. cbn [snd]. apply in_combine_r in Hin.
  unfold ColumnTransformer_fit_transform in HX.
  destruct (fit_transform_each _ _) as [out|e] eqn:Hout; cbn [obind] in HX;
    [|discriminate].
  apply Return_inj in HX. subst X. cbn [acols] in Hin.
  refine (fit_transform_each_complete _ _ _ _ Hout c Hin).
  repeat constructor; cbn [fst snd].
  - apply Pipeline_completes.
  - apply SimpleImputer_completes.
Qed.

(** C1 does not hold of the code: on [blank_identifier], with the default
    parameters, the call returns normally and the returned table still has
    the blank of ["Cast Count"].  The identifier columns are never imputed,
    and the check of line 182 passes as soon as one column is complete. *)
Theorem blank_identifier_is_returned :
  exists t,
    fst (preprocess_data Num.Qsqrt 70 "mean" "most_frequent" (-999) "standard"
                         "prepared_data.csv" (store_of blank_identifier)) =
    Return t /\
    get_column "Cast Count" (cols t) = Some (None :: full 7) /\
    missing_cells t = 1.
Proof.
  eexists. split; [vm_compute; reflexivity|].
  split; vm_compute; reflexivity.
Qed.

(* ================================================================== *)
(** ** Loading the table *)
(* ================================================================== *)

Lemma fst_combine {A B : Type} (l : list A) (l' : list B) :
  length l = length l' -> map fst (combine l l') = l.
Proof.
  revert l'. induction l as [|x l IH]; intros [|y l'] H; cbn in *;
    try discriminate; [reflexivity|]. f_equal. apply IH. lia.
Qed.

Lemma snd_combine {A B : Type} (l : list A) (l' : list B) :
  length l = length l' -> map snd (combine l l') = l'.
Proof.
  revert l'. induction l as [|x l IH]; intros [|y l'] H; cbn in *;
    try discriminate; [reflexivity|]. f_equal. apply IH. lia.
Qed.

Lemma columns_distinct : NoDup columns.
Proof. apply distinct_labels_NoDup. vm_compute. reflexivity. Qed.

(** X1: line 58 renames by position.  A table of exactly 74 columns is
    loaded with the 74 labels of the schema, which are pairwise distinct,
    its row labels and its cells untouched; a table of any other width
    makes the assignment raise [ValueError]. *)
Theorem loading_renames_by_position (csv : DataFrame) :
  (length (cols csv) = 74 ->
   exists df,
     loaded csv = Return (mkWorld [df] []) /\
     names df = columns /\ NoDup (names df) /\
     index df = index csv /\
     map snd (cols df) = map snd (cols csv)) /\
  (length (cols csv) <> 74 -> loaded csv = Raise ValueError).
Proof.
  unfold loaded, set_columns. change (length columns) with 74. split.
  - intros H. rewrite H. cbn [Nat.eqb obind].
    change (Nat.eqb 74 74) with true. cbv iota. cbn [obind].
    eexists. split; [reflexivity|]. unfold names. cbn [cols index].
    assert (Hlen : length columns = length (map snd (cols csv))).
    { rewrite length_map, H. reflexivity. }
    rewrite (fst_combine _ _ Hlen), (snd_combine _ _ Hlen).
    repeat split. apply columns_distinct.
  - intros H. apply Nat.eqb_neq in H. rewrite Nat.eqb_sym in H.
    now rewrite H.
Qed.

Lemma loading_renames_by_position_witness :
  (exists df,
     loaded third_missing = Return (mkWorld [df] []) /\
     names df = columns /\ NoDup (names df) /\
     index df = index third_missing /\
     map snd (cols df) = map snd (cols third_missing)) /\
  loaded one_column = Raise ValueError.
Proof.
  split.
  - apply (proj1 (loading_renames_by_position third_missing)). reflexivity.
  - apply (proj2 (loading_renames_by_position one_column)). discriminate.
Defined.

(* ================================================================== *)
(** ** The threshold *)
(* ================================================================== *)

Lemma rint_ge (x : Q) (z : Z) : (inject_Z z <= x)%Q -> (z <= Num.rint x)%Z.
Proof.
  intros H. apply Qfloor_resp_le in H. rewrite Qfloor_Z in H.
  unfold Num.rint.
  destruct (Qcompare (x - inject_Z (Qfloor x)) (1 # 2));
    [destruct (Z.even (Qfloor x))|..]; lia.
Qed.

Lemma rint_le (x : Q) (z : Z) : (x <= inject_Z z)%Q -> (Num.rint x <= z)%Z.
Proof.
  intros H. pose proof (Qfloor_resp_le _ _ H) as Hf. rewrite Qfloor_Z in Hf.
  unfold Num.rint.
  destruct (Z.eq_dec (Qfloor x) z) as [E|E].
  - assert (Hc : Qcompare (x - inject_Z (Qfloor x)) (1 # 2) = Lt).
    { rewrite <- Qlt_alt. rewrite E. lra. }
    rewrite Hc. lia.
  - destruct (Qcompare (x - inject_Z (Qfloor x)) (1 # 2));
      [destruct (Z.even (Qfloor x))|..]; lia.
Qed.

Lemma round2_ge (q : Q) (z : Z) :
  (inject_Z z <= q * 100)%Q -> (inject_Z z / 100 <= Num.round2 q)%Q.
Proof.
  intros H. unfold Num.round2. rewrite Qred_correct.
  apply rint_ge in H. apply Qmult_le_compat_r; [|discriminate].
  now rewrite <- Zle_Qle.
Qed.

Lemma round2_le (q : Q) (z : Z) :
  (q * 100 <= inject_Z z)%Q -> (Num.round2 q <= inject_Z z / 100)%Q.
Proof.
  intros H. unfold Num.round2. rewrite Qred_correct.
  apply rint_le in H. apply Qmult_le_compat_r; [|discriminate].
  now rewrite <- Zle_Qle.
Qed.

Lemma spec_percent_bounds (count rows : nat) :
  rows <> 0 -> count <= rows ->
  (0 <= spec_percent count rows /\ spec_percent count rows <= 100)%Q.
Proof.
  intros Hr Hc. unfold spec_percent.
  assert (H0 : (0 < inject_Z (Z.of_nat rows))%Q).
  { change 0%Q with (inject_Z 0). rewrite <- Zlt_Qlt. lia. }
  assert (H1 : (0 <= inject_Z (Z.of_nat count))%Q).
  { change 0%Q with (inject_Z 0). rewrite <- Zle_Qle. lia. }
  assert (H2 : (inject_Z (Z.of_nat count) <= inject_Z (Z.of_nat rows))%Q).
  { rewrite <- Zle_Qle. lia. }
  set (c := inject_Z (Z.of_nat count)) in *. set (r := inject_Z (Z.of_nat rows)) in *.
  assert (Hq : (0 <= c / r /\ c / r <= 1)%Q).
  { split.
    - apply Qle_shift_div_l; [assumption|]. lra.
    - apply Qle_shift_div_r; [assumption|]. lra. }
  lra.
Qed.

(** The rounded percentage of a column that fits in the table lies between
    0 and 100. *)
Lemma percent_bounds (count rows : nat) (p : Q) :
  count <= rows -> percent count rows = Some p -> (0 <= p /\ p <= 100)%Q.
Proof.
  intros Hc. unfold percent. destruct (Nat.eqb rows 0) eqn:E; [discriminate|].
  apply Nat.eqb_neq in E. intros [= <-].
  fold (spec_percent count rows).
  destruct (spec_percent_bounds count rows E Hc) as [H0 H1]. split.
  - apply (Qle_trans _ (inject_Z 0 / 100)); [discriminate|].
    apply round2_ge. change (inject_Z 0) with 0%Q. lra.
  - apply (Qle_trans _ (inject_Z 10000 / 100)); [|discriminate].
    apply round2_le. change (inject_Z 10000) with (100 * 100)%Q. lra.
Qed.

Lemma percent_nonneg (count rows : nat) (p : Q) :
  percent count rows = Some p -> (0 <= p)%Q.
Proof.
  unfold percent. destruct (Nat.eqb rows 0) eqn:E; [discriminate|].
  apply Nat.eqb_neq in E. intros [= <-].
  apply (Qle_trans _ (inject_Z 0 / 100)); [discriminate|].
  apply round2_ge.
  assert (H0 : (0 < inject_Z (Z.of_nat rows))%Q).
  { change 0%Q with (inject_Z 0). rewrite <- Zlt_Qlt. lia. }
  assert (H1 : (0 <= inject_Z (Z.of_nat count))%Q).
  { change 0%Q with (inject_Z 0). rewrite <- Zle_Qle. lia. }
  assert (Hq : (0 <= inject_Z (Z.of_nat count) / inject_Z (Z.of_nat rows))%Q).
  { apply Qle_shift_div_l; [assumption|]. lra. }
  change (inject_Z 0) with 0%Q. lra.
Qed.

Lemma gt_true_iff (p : option Q) (t : Q) :
  gt p t = true <-> exists x, p = Some x /\ (t < x)%Q.
Proof.
  destruct p as [x|]; cbn.
  - rewrite negb_true_iff. split.
    + intros H. exists x. split; [reflexivity|].
      apply Qnot_le_lt. intros Hle. apply Qle_bool_iff in Hle. congruence.
    + intros [y [[= <-] Hlt]]. destruct (Qle_bool x t) eqn:E; [|reflexivity].
      apply Qle_bool_iff in E. lra.
  - split; [discriminate | intros [x [H _]]; discriminate].
Qed.

Lemma isna_sum_le (c : list cell) : isna_sum c <= length c.
Proof. unfold isna_sum. apply filter_length_le. Qed.

Lemma rectangular_In (df : DataFrame) (nc : string * list cell) :
  rectangular df = true -> In nc (cols df) -> length (snd nc) = shape0 df.
Proof.
  unfold rectangular. rewrite forallb_forall. intros H Hin.
  now apply Nat.eqb_eq, H.
Qed.

Lemma filter_nil {A : Type} (f : A -> bool) (l : list A) :
  (forall x, In x l -> f x = false) -> filter f l = [].
Proof.
  induction l as [|x l IH]; cbn; intros H; [reflexivity|].
  rewrite (H x) by now left. apply IH. intros y Hy. apply H. now right.
Qed.

Lemma drop_nothing (data : DataFrame) : drop [] data = data.
Proof.
  destruct data as [ix cs]. unfold drop. cbn [index cols]. f_equal.
  induction cs as [|x cs IH]; [reflexivity|].
  cbn [filter mem existsb negb]. f_equal. exact IH.
Qed.

(** X2: on a rectangular table a threshold of 100 or more drops
    nothing, the pruned table is the table itself. *)
Theorem threshold_100_drops_nothing (thr : Q) (data : DataFrame) :
  rectangular data = true -> (100 <= thr)%Q ->
  columns_to_drop thr data = [] /\
  drop (columns_to_drop thr data) data = data.
Proof.
  intros Hrect Hthr.
  assert (H : columns_to_drop thr data = []).
  { unfold columns_to_drop, missing. rewrite filter_nil; [reflexivity|].
    intros [n [k p]] Hin. cbn [snd].
    apply in_map_iff in Hin. destruct Hin as [[n' c] [Heq Hin]].
    cbn [fst snd] in Heq. injection Heq as -> <- <-.
    destruct (gt _ thr) eqn:E; [|reflexivity].
    apply gt_true_iff in E. destruct E as [x [Hx Hlt]].
    apply percent_bounds in Hx.
    - lra.
    - rewrite <- (rectangular_In data (n, c) Hrect Hin). apply isna_sum_le. }
  split; [exact H|]. rewrite H. apply drop_nothing.
Qed.

Lemma threshold_100_drops_nothing_witness :
  rectangular third_missing = true /\ (100 <= 100)%Q /\
  columns_to_drop 100 third_missing = [] /\
  drop (columns_to_drop 100 third_missing) third_missing = third_missing.
Proof.
  split; [vm_compute; reflexivity|]. split; [discriminate|].
  apply (threshold_100_drops_nothing 100 third_missing);
    [vm_compute; reflexivity | discriminate].
Defined.

(** X3: raising the threshold never drops more: a label dropped at the
    higher of two thresholds is dropped at the lower one. *)
Theorem higher_threshold_drops_less (thr thr' : Q) (data : DataFrame) (n : string) :
  (thr <= thr')%Q ->
  In n (columns_to_drop thr' data) -> In n (columns_to_drop thr data).
Proof.
  intros Hle. rewrite !columns_to_drop_In. intros [c [Hin Hgt]].
  exists c. split; [assumption|].
  apply gt_true_iff in Hgt. destruct Hgt as [x [Hx Hlt]].
  apply gt_true_iff. exists x. split; [assumption | lra].
Qed.

Lemma higher_threshold_drops_less_witness :
  (50 <= 60)%Q /\
  In "Salinity" (columns_to_drop 60 sparse_target) /\
  In "Salinity" (columns_to_drop 50 sparse_target).
Proof.
  assert (H : In "Salinity" (columns_to_drop 60 sparse_target)).
  { apply mem_In. vm_compute. reflexivity. }
  split; [discriminate|]. split; [exact H|].
  apply (higher_threshold_drops_less 50 60 sparse_target "Salinity");
    [discriminate | exact H].
Defined.

Lemma negative_threshold_drops_all (thr : Q) (data : DataFrame) :
  shape0 data <> 0 -> (thr < 0)%Q ->
  cols (drop (columns_to_drop thr data) data) = [].
Proof.
  intros Hrows Hthr. unfold drop. cbn [cols]. apply filter_nil.
  intros [n c] Hin. cbn [fst]. apply negb_false_iff, mem_In, columns_to_drop_In.
  exists c. split; [assumption|]. apply gt_true_iff.
  unfold percent at 1. apply Nat.eqb_neq in Hrows. rewrite Hrows.
  eexists. split; [reflexivity|].
  assert (H : percent (isna_sum c) (shape0 data) =
              Some (Num.round2 (inject_Z (Z.of_nat (isna_sum c)) /
                                inject_Z (Z.of_nat (shape0 data)) * 100))).
  { unfold percent. now rewrite Hrows. }
  apply percent_nonneg in H. lra.
Qed.

(** X4: a negative threshold drops every column of a table that has
    rows, the target included, so the call raises [KeyError] at line
    125. *)
Theorem negative_threshold_raises_KeyError
        sqrt thr ns cs fv sc fn (w : world) (src : DataFrame) :
  nth_error (heap w) bottle_df = Some src ->
  shape0 src <> 0 -> (thr < 0)%Q ->
  names (drop (columns_to_drop thr src) src) = [] /\
  fst (preprocess_data sqrt thr ns cs fv sc fn w) = Raise (KeyError "Salinity").
Proof.
  intros Hsrc Hrows Hthr.
  pose proof (negative_threshold_drops_all thr src Hrows Hthr) as Hnil.
  split; [unfold names; now rewrite Hnil|].
  rewrite preprocess_data_result, Hsrc. unfold transform, pruned, dropna.
  now rewrite Hnil.
Qed.

Lemma negative_threshold_raises_KeyError_witness :
  nth_error (heap (store_of third_missing)) bottle_df = Some third_missing /\
  shape0 third_missing <> 0 /\ (-1 < 0)%Q /\
  names (drop (columns_to_drop (-1) third_missing) third_missing) = [] /\
  fst (preprocess_data Num.Qsqrt (-1) "mean" "most_frequent" (-999) "standard"
                       "prepared_data.csv" (store_of third_missing)) =
  Raise (KeyError "Salinity").
Proof.
  split; [reflexivity|]. split; [discriminate|]. split; [reflexivity|].
  apply (negative_threshold_raises_KeyError
           Num.Qsqrt (-1)%Q "mean" "most_frequent" (-999)%Q "standard"
           "prepared_data.csv" (store_of third_missing) third_missing);
    [reflexivity | discriminate | reflexivity].
Defined.

Lemma percent_of_none (rows : nat) (p : Q) :
  percent 0 rows = Some p -> (p <= 0)%Q.
Proof.
  unfold percent. destruct (Nat.eqb rows 0); [discriminate|]. intros [= <-].
  apply (Qle_trans _ (inject_Z 0 / 100)); [|discriminate].
  apply round2_le. change (inject_Z (Z.of_nat 0)) with 0%Q.
  change (inject_Z 0) with 0%Q. unfold Qdiv. lra.
Qed.

(** X5: on a table with distinct labels and at a threshold that is not
    negative, a column without a missing value is kept. *)
Theorem complete_column_is_kept (thr : Q) (data : DataFrame)
        (n : string) (c : list cell) :
  NoDup (names data) -> In (n, c) (cols data) -> isna_sum c = 0 ->
  (0 <= thr)%Q ->
  In (n, c) (cols (drop (columns_to_drop thr data) data)).
Proof.
  intros Hnd Hin Hc Hthr. unfold drop. cbn [cols]. apply filter_In.
  split; [assumption|].
  rewrite (dropped_iff_above thr data (n, c) Hnd Hin). cbn [snd]. rewrite Hc.
  destruct (gt _ thr) eqn:E; [|reflexivity].
  apply gt_true_iff in E. destruct E as [x [Hx Hlt]].
  apply percent_of_none in Hx. lra.
Qed.

Lemma complete_column_is_kept_witness :
  NoDup (names third_missing) /\
  In ("Depth", full 3) (cols third_missing) /\
  isna_sum (full 3) = 0 /\ (0 <= 0)%Q /\
  In ("Depth", full 3)
     (cols (drop (columns_to_drop 0 third_missing) third_missing)).
Proof.
  assert (Hnd : NoDup (names third_missing)).
  { apply distinct_labels_NoDup. vm_compute. reflexivity. }
  assert (Hin : In ("Depth", full 3) (cols third_missing)).
  { apply get_column_In. reflexivity. }
  split; [exact Hnd|]. split; [exact Hin|]. split; [reflexivity|].
  split; [discriminate|].
  apply (complete_column_is_kept 0 third_missing "Depth" (full 3));
    [exact Hnd | exact Hin | reflexivity | discriminate].
Defined.

(* ================================================================== *)
(** ** The row filter *)
(* ================================================================== *)

Lemma get_column_mapped (f : list cell -> list cell) (l : string)
      (cs : list (string * list cell)) :
  get_column l (map (fun nc => (fst nc, f (snd nc))) cs) =
  option_map f (get_column l cs).
Proof.
  induction cs as [|[n c] cs IH]; cbn; [reflexivity|].
  destruct (String.eqb l n); [reflexivity | exact IH].
Qed.

Lemma isna_sum_take_notna (c : list cell) :
  isna_sum (take (map notna c) c) = 0.
Proof.
  unfold isna_sum. induction c as [|[x|] c IH]; cbn; auto.
Qed.

Lemma length_take_notna {A : Type} (c : list cell) (l : list A) :
  length l = length c ->
  length (take (map notna c) l) + isna_sum c = length c.
Proof.
  unfold isna_sum. revert l.
  induction c as [|[x|] c IH]; intros [|y l] H; cbn in *; try discriminate;
    [reflexivity|..]; specialize (IH l); lia.
Qed.

Lemma get_column_drop (labels : list string) (df : DataFrame) (l : string) :
  get_column l (cols (drop labels df)) =
  if mem l labels then None else get_column l (cols df).
Proof.
  unfold drop. cbn [cols]. induction (cols df) as [|[n c] cs IH]; cbn [filter fst].
  - now destruct (mem l labels).
  - destruct (mem n labels) eqn:En; cbn [negb get_column].
    + rewrite IH. destruct (String.eqb l n) eqn:E; [|reflexivity].
      apply String.eqb_eq in E. subst. now rewrite En.
    + destruct (String.eqb l n) eqn:E; [|exact IH].
      apply String.eqb_eq in E. subst. now rewrite En.
Qed.

(** X6: line 125 keeps the rows that have a target, and only them.  When
    the pruned table exists, its row labels and each of its columns are
    those of the source taken at the rows where ["Salinity"] is present;
    its ["Salinity"] column has no missing cell; and, the target having one
    cell per row, it has as many rows as the source has targets. *)
Theorem row_filter_keeps_rows_with_target (thr : Q) (src d : DataFrame) :
  pruned thr src = Return d ->
  exists c,
    get_column "Salinity" (cols src) = Some c /\
    index d = take (map notna c) (index src) /\
    (forall n x, get_column n (cols d) = Some x ->
       exists y, get_column n (cols src) = Some y /\ x = take (map notna c) y) /\
    get_column "Salinity" (cols d) = Some (take (map notna c) c) /\
    isna_sum (take (map notna c) c) = 0 /\
    (length c = shape0 src -> shape0 d + isna_sum c = shape0 src).
Proof.
  unfold pruned, dropna. intros H.
  destruct (get_column "Salinity" (cols (drop _ src))) as [c|] eqn:Hc;
    [|discriminate].
  apply Return_inj in H. subst d. exists c.
  assert (Hsrc : forall n x,
             get_column n (cols (drop (columns_to_drop thr src) src)) = Some x ->
             get_column n (cols src) = Some x).
  { intros n x. rewrite get_column_drop. now destruct (mem n _). }
  cbn [index cols]. repeat split.
  - now apply Hsrc.
  - intros n x. rewrite get_column_mapped.
    destruct (get_column n (cols (drop _ src))) as [y|] eqn:Hy; [|discriminate].
    intros [= <-]. exists y. split; [now apply Hsrc | reflexivity].
  - rewrite get_column_mapped, Hc. reflexivity.
  - apply isna_sum_take_notna.
  - intros Hlen. unfold shape0 in *. cbn [index].
    rewrite <- Hlen. apply length_take_notna. now symmetry.
Qed.

Lemma row_filter_keeps_rows_with_target_witness :
  exists d,
    pruned 70 late_identifier = Return d /\
    exists c,
      get_column "Salinity" (cols late_identifier) = Some c /\
      index d = take (map notna c) (index late_identifier) /\
      (forall n x, get_column n (cols d) = Some x ->
         exists y, get_column n (cols late_identifier) = Some y /\
                   x = take (map notna c) y) /\
      get_column "Salinity" (cols d) = Some (take (map notna c) c) /\
      isna_sum (take (map notna c) c) = 0 /\
      (length c = shape0 late_identifier ->
       shape0 d + isna_sum c = shape0 late_identifier).
Proof.
  eexists. split; [vm_compute; reflexivity|].
  apply (row_filter_keeps_rows_with_target 70 late_identifier).
  vm_compute. reflexivity.
Defined.

(* ================================================================== *)
(** ** Past the row filter *)
(* ================================================================== *)

Lemma keys_dict_set (k : string) (v : nat) (d : dict) (x : string) :
  In x (keys (dict_set k v d)) <-> x = k \/ In x (keys d).
Proof.
  induction d as [|[k' v'] d IH]; cbn.
  - intuition congruence.
  - destruct (String.eqb k k') eqn:E; cbn.
    + apply String.eqb_eq in E. subst. intuition congruence.
    + rewrite IH. intuition congruence.
Qed.

Lemma uniques_fold_keys (new_data : DataFrame) (ns : list string) (u : dict)
      (x : string) :
  (forall n, In n ns -> In n (names new_data)) ->
  In x (keys (fold_left (fun u column =>
                           match get_column column (cols new_data) with
                           | Some c => dict_set column (nunique c) u
                           | None => u
                           end) ns u)) <->
  In x ns \/ In x (keys u).
Proof.
  revert u. induction ns as [|n ns IH]; intros u Hin; cbn [fold_left].
  - cbn. tauto.
  - rewrite IH by (intros m Hm; apply Hin; now right).
    destruct (get_column n (cols new_data)) as [c|] eqn:E.
    + rewrite keys_dict_set. cbn. intuition congruence.
    + apply get_column_None in E. exfalso. apply E, Hin. now left.
Qed.

Lemma uniques_keys (new_data : DataFrame) (x : string) :
  In x (keys (uniques new_data)) <-> In x (names new_data).
Proof.
  unfold uniques. rewrite uniques_fold_keys by auto. cbn. tauto.
Qed.

Lemma dict_get_key (d : dict) (k : string) :
  In k (keys d) -> exists v, dict_get k d = Some v.
Proof.
  induction d as [|[k' v'] d IH]; cbn; [tauto|].
  intros H. destruct (String.eqb k k') eqn:E; [eauto|].
  apply String.eqb_neq in E. apply IH. destruct H; [congruence | assumption].
Qed.

Lemma attributes_cover (u : dict) (k : string) :
  In k (keys u) -> In k (num_attributes u) \/ In k (cat_attributes u).
Proof.
  intros H. destruct (dict_get_key u k H) as [v Hv].
  unfold num_attributes, cat_attributes. rewrite !filter_In, Hv.
  destruct (Nat.leb v 6) eqn:E.
  - right. tauto.
  - left. split; [assumption|]. apply Nat.leb_gt in E. now apply Nat.ltb_lt.
Qed.

Lemma num_attributes_keys (u : dict) (k : string) :
  In k (num_attributes u) -> In k (keys u).
Proof. unfold num_attributes. rewrite filter_In. tauto. Qed.

Lemma cat_attributes_keys (u : dict) (k : string) :
  In k (cat_attributes u) -> In k (keys u).
Proof. unfold cat_attributes. rewrite filter_In. tauto. Qed.

Lemma getitem_total (ls : list string) (df : DataFrame) :
  (forall l, In l ls -> In l (names df)) ->
  getitem ls df = Return (map (fun l => (l, column_of (cols df) l)) ls).
Proof.
  induction ls as [|l ls IH]; intros H; cbn; [reflexivity|].
  unfold column_of at 1.
  destruct (get_column l (cols df)) as [c|] eqn:E.
  - rewrite IH by (intros m Hm; apply H; now right). reflexivity.
  - apply get_column_None in E. exfalso. apply E, H. now left.
Qed.

(** Past the row filter, the call is the scaler choice, the column
    transformer on the selected columns, the frame built from its output
    and the final check. *)
Lemma transform_unfold sqrt thr ns cs fv sc (src d : DataFrame) :
  pruned thr src = Return d ->
  transform sqrt thr ns cs fv sc src =
  let new_data := iloc_from 4 d in
  let u := uniques new_data in
  let select ls := map (fun l => (l, column_of (cols new_data) l)) ls in
  obind (if String.eqb sc "standard" then Return StandardScaler
         else if String.eqb sc "normal" then Return MinMaxScaler
         else Raise (UnboundLocalError "scaler")) (fun scaler =>
  obind (ColumnTransformer_fit_transform
           [("num",
             Pipeline sqrt (if String.eqb ns "constant"
                            then mkSimpleImputer ns (Some fv)
                            else mkSimpleImputer ns None) scaler,
             num_attributes u);
            ("cat", SimpleImputer_fit_transform (mkSimpleImputer cs None),
             cat_attributes u)]
           (mkDataFrame (index d)
                        (select (num_attributes u) ++ select (cat_attributes u))))
        (fun X =>
  obind (DataFrame_of_array X (num_attributes u ++ cat_attributes u)) (fun df =>
  let prepared_df := concat_axis1 (reset_index (iloc_upto 4 d)) (reset_index df) in
  if all_isna_sum prepared_df then Raise AssertionError
  else Return prepared_df))).
Proof.
  intros Hd. unfold transform. rewrite Hd. cbn [obind]. unfold prepared_bottle.
  cbn zeta.
  rewrite !getitem_total.
  - cbn [obind index]. rewrite concat_axis1_aligned.
    change (index (iloc_from 4 d)) with (index d).
    destruct (String.eqb sc "standard");
      [|destruct (String.eqb sc "normal")]; cbn [obind]; [| |reflexivity].
    all: destruct (ColumnTransformer_fit_transform _ _); cbn [obind];
      [|reflexivity].
    all: destruct (DataFrame_of_array _ _); reflexivity.
  - intros l Hl. now apply uniques_keys, cat_attributes_keys.
  - intros l Hl. now apply uniques_keys, num_attributes_keys.
Qed.

Lemma check_array_raises (X : ndarray) (e : exn) :
  check_array X = Raise e -> e = ValueError.
Proof.
  unfold check_array. destruct (Nat.eqb (nrows X) 0); [congruence|].
  destruct (Nat.eqb (length (acols X)) 0); congruence.
Qed.

Lemma check_array_no_rows (X : ndarray) :
  nrows X = 0 -> check_array X = Raise ValueError.
Proof. unfold check_array. now intros ->. Qed.

Lemma SimpleImputer_raises (imp : SimpleImputer) :
  raises_only_ValueError (SimpleImputer_fit_transform imp).
Proof.
  intros X e. unfold SimpleImputer_fit_transform.
  destruct (valid_strategy (strategy imp)); [|congruence].
  destruct (check_array X) as [X'|e'] eqn:E; cbn [obind]; [discriminate|].
  intros [= <-]. now apply check_array_raises in E.
Qed.

Lemma Pipeline_raises sqrt (imp : SimpleImputer) (s : Scaler) :
  raises_only_ValueError (Pipeline sqrt imp s).
Proof.
  intros X e. unfold Pipeline.
  destruct (SimpleImputer_fit_transform imp X) as [X1|e1] eqn:E1; cbn [obind].
  - unfold scaler_fit_transform.
    destruct (check_array X1) as [X2|e2] eqn:E2; cbn [obind]; [discriminate|].
    intros [= <-]. now apply check_array_raises in E2.
  - intros [= <-]. now apply SimpleImputer_raises in E1.
Qed.

Lemma SimpleImputer_unknown_strategy (imp : SimpleImputer) (X : ndarray) :
  valid_strategy (strategy imp) = false ->
  SimpleImputer_fit_transform imp X = Raise ValueError.
Proof. unfold SimpleImputer_fit_transform. now intros ->. Qed.

Lemma SimpleImputer_no_rows (imp : SimpleImputer) (X : ndarray) :
  nrows X = 0 -> SimpleImputer_fit_transform imp X = Raise ValueError.
Proof.
  intros H. unfold SimpleImputer_fit_transform.
  destruct (valid_strategy (strategy imp)); [|reflexivity].
  now rewrite check_array_no_rows.
Qed.

Lemma numerical_imputer_strategy (ns : string) (fv : Q) :
  strategy (if String.eqb ns "constant"
            then mkSimpleImputer ns (Some fv)
            else mkSimpleImputer ns None) = ns.
Proof. now destruct (String.eqb ns "constant"). Qed.

Lemma getitem_select_r (f : string -> list cell) (num cat : list string)
      (ix : list Z) :
  getitem cat (mkDataFrame ix (map (fun l => (l, f l)) num ++
                               map (fun l => (l, f l)) cat)) =
  Return (map (fun l => (l, f l)) cat).
Proof.
  assert (H : forall ls, (forall l, In l ls -> In l cat) ->
            getitem ls (mkDataFrame ix (map (fun l => (l, f l)) num ++
                                        map (fun l => (l, f l)) cat)) =
            Return (map (fun l => (l, f l)) ls)).
  { induction ls as [|l ls IH]; intros Hsub; [reflexivity|].
    cbn [getitem cols]. rewrite get_column_app.
    destruct (get_column l (map (fun l => (l, f l)) num)) as [c|] eqn:E.
    - assert (c = f l) as ->.
      { apply get_column_In in E. apply in_map_iff in E.
        destruct E as [l' [[= -> <-] _]]. reflexivity. }
      rewrite IH by (intros m Hm; apply Hsub; now right). reflexivity.
    - rewrite get_column_map by (apply Hsub; now left).
      rewrite IH by (intros m Hm; apply Hsub; now right). reflexivity. }
  apply H. auto.
Qed.

(** The column transformer of line 167 on the selected columns: it
    returns, or raises [ValueError]. *)
Lemma full_pipeline_raises
      (num cat : list string) (f : string -> list cell) (ix : list Z)
      (tnum tcat : ndarray -> outcome ndarray) (e : exn) :
  raises_only_ValueError tnum -> raises_only_ValueError tcat ->
  ColumnTransformer_fit_transform
    [("num", tnum, num); ("cat", tcat, cat)]
    (mkDataFrame ix (map (fun l => (l, f l)) num ++ map (fun l => (l, f l)) cat)) =
  Raise e ->
  e = ValueError.
Proof.
  intros Hnum Hcat. unfold ColumnTransformer_fit_transform.
  set (X := mkDataFrame ix _).
  assert (Hc : forall e, fit_transform_each [("cat", tcat, cat)] X = Raise e ->
                         e = ValueError).
  { intros e'. destruct cat as [|b cat]; [discriminate|].
    rewrite fit_transform_each_cons.
    assert (Hg : getitem (b :: cat) X =
                 Return (map (fun l => (l, f l)) (b :: cat))).
    { apply getitem_select_r. }
    rewrite Hg. cbn [obind].
    destruct (tcat _) as [Y|e1] eqn:E1; cbn [obind].
    - cbn. discriminate.
    - intros [= <-]. now apply Hcat in E1. }
  destruct num as [|a num].
  - change (fit_transform_each [("num", tnum, []); ("cat", tcat, cat)] X)
      with (fit_transform_each [("cat", tcat, cat)] X).
    destruct (fit_transform_each _ X) as [out|e1] eqn:E1; cbn [obind];
      [discriminate|].
    intros [= <-]. now apply Hc.
  - rewrite fit_transform_each_cons. unfold X at 1. rewrite getitem_map.
    cbn [obind].
    destruct (tnum _) as [Y|e1] eqn:E1; cbn [obind].
    + destruct (fit_transform_each _ X) as [out|e2] eqn:E2; cbn [obind];
        [discriminate|].
      intros [= <-]. now apply Hc.
    + intros [= <-]. now apply Hnum in E1.
Qed.

(** X7: lines 158-161 bind [scaler] for ["standard"] and ["normal"]
    only.  With any other [scaling], once the row filter has passed, the
    call raises [UnboundLocalError] at line 164, whatever the strategies
    are. *)
Theorem unsupported_scaling_raises_UnboundLocalError
        sqrt thr ns cs fv sc fn (w : world) (src d : DataFrame) :
  nth_error (heap w) bottle_df = Some src ->
  pruned thr src = Return d ->
  sc <> "standard" -> sc <> "normal" ->
  fst (preprocess_data sqrt thr ns cs fv sc fn w) =
  Raise (UnboundLocalError "scaler").
Proof.
  intros Hsrc Hd H1 H2.
  rewrite preprocess_data_result, Hsrc, (transform_unfold _ _ _ _ _ _ _ _ Hd).
  apply String.eqb_neq in H1, H2. cbn zeta. now rewrite H1, H2.
Qed.

Lemma unsupported_scaling_raises_UnboundLocalError_witness :
  exists d,
    nth_error (heap (store_of mixed)) bottle_df = Some mixed /\
    pruned 70 mixed = Return d /\
    "robust" <> "standard" /\ "robust" <> "normal" /\
    fst (preprocess_data Num.Qsqrt 70 "mean" "most_frequent" (-999) "robust"
                         "prepared_data.csv" (store_of mixed)) =
    Raise (UnboundLocalError "scaler").
Proof.
  eexists. split; [reflexivity|]. split; [vm_compute; reflexivity|].
  split; [discriminate|]. split; [discriminate|].
  eapply (unsupported_scaling_raises_UnboundLocalError
           Num.Qsqrt 70 "mean" "most_frequent" (-999)%Q "robust"
           "prepared_data.csv" (store_of mixed) mixed _);
    [reflexivity | vm_compute; reflexivity | discriminate | discriminate].
Defined.

Lemma scaler_chosen (sc : string) :
  sc = "standard" \/ sc = "normal" ->
  exists scaler,
    (if String.eqb sc "standard" then Return StandardScaler
     else if String.eqb sc "normal" then Return MinMaxScaler
          else Raise (UnboundLocalError "scaler")) = Return scaler.
Proof.
  intros [->| ->]; eexists; reflexivity.
Qed.

(** X8: a strategy name that the imputer does not know is found out when
    the imputer is fitted: with a valid scaling, an unknown [num_strategy]
    with at least one continuous column, or an unknown [cat_strategy] with
    at least one categorical column, makes the call raise [ValueError]. *)
Theorem unknown_strategy_raises_ValueError
        sqrt thr ns cs fv sc fn (w : world) (src d : DataFrame) :
  nth_error (heap w) bottle_df = Some src ->
  pruned thr src = Return d ->
  sc = "standard" \/ sc = "normal" ->
  let u := uniques (iloc_from 4 d) in
  (num_attributes u <> [] /\ valid_strategy ns = false) \/
  (cat_attributes u <> [] /\ valid_strategy cs = false) ->
  fst (preprocess_data sqrt thr ns cs fv sc fn w) = Raise ValueError.
Proof.
  intros Hsrc Hd Hsc u Hbad.
  rewrite preprocess_data_result, Hsrc, (transform_unfold _ _ _ _ _ _ _ _ Hd).
  cbn zeta. fold u.
  destruct (scaler_chosen sc Hsc) as [scaler ->]. cbn [obind].
  set (f := column_of (cols (iloc_from 4 d))).
  set (imp := if String.eqb ns "constant" then _ else _).
  unfold ColumnTransformer_fit_transform.
  assert (Hcat : cat_attributes u <> [] -> valid_strategy cs = false ->
                 fit_transform_each
                   [("cat", SimpleImputer_fit_transform (mkSimpleImputer cs None),
                     cat_attributes u)]
                   (mkDataFrame (index d)
                      (map (fun l => (l, f l)) (num_attributes u) ++
                       map (fun l => (l, f l)) (cat_attributes u))) =
                 Raise ValueError).
  { intros Hne Hcs. destruct (cat_attributes u) as [|b cat] eqn:E; [congruence|].
    rewrite fit_transform_each_cons, getitem_select_r. cbn [obind].
    now rewrite SimpleImputer_unknown_strategy. }
  destruct (num_attributes u) as [|a num] eqn:Enum.
  - destruct Hbad as [[Hne _]|[Hne Hcs]]; [congruence|].
    change (fit_transform_each (("num", _, []) :: ?ts) ?X)
      with (fit_transform_each ts X).
    now rewrite (Hcat Hne Hcs).
  - rewrite fit_transform_each_cons, getitem_map. cbn [obind].
    destruct Hbad as [[_ Hns]|[Hne Hcs]].
    + unfold Pipeline. rewrite SimpleImputer_unknown_strategy; [reflexivity|].
      unfold imp. now rewrite numerical_imputer_strategy.
    + destruct (Pipeline sqrt imp scaler _) as [Y|e] eqn:EY; cbn [obind].
      * now rewrite (Hcat Hne Hcs).
      * apply Pipeline_raises in EY. now subst e.
Qed.

Lemma unknown_strategy_raises_ValueError_witness :
  exists d,
    nth_error (heap (store_of mixed)) bottle_df = Some mixed /\
    pruned 70 mixed = Return d /\
    num_attributes (uniques (iloc_from 4 d)) <> [] /\
    valid_strategy "mode" = false /\
    fst (preprocess_data Num.Qsqrt 70 "mode" "most_frequent" (-999) "standard"
                         "prepared_data.csv" (store_of mixed)) =
    Raise ValueError.
Proof.
  eexists. split; [reflexivity|]. split; [vm_compute; reflexivity|].
  split; [vm_compute; discriminate|]. split; [reflexivity|].
  eapply (unknown_strategy_raises_ValueError
           Num.Qsqrt 70 "mode" "most_frequent" (-999)%Q "standard"
           "prepared_data.csv" (store_of mixed) mixed _);
    [reflexivity | vm_compute; reflexivity | left; reflexivity |].
  left. split; [vm_compute; discriminate | reflexivity].
Defined.

(** X9: when no column is continuous the numerical pipeline is never
    fitted, and neither [num_strategy] nor [fill_value] has any effect on
    the outcome: an unknown strategy name goes unnoticed. *)
Theorem unused_num_strategy_is_ignored
        sqrt thr ns ns' cs fv fv' sc fn (w : world) (src d : DataFrame) :
  nth_error (heap w) bottle_df = Some src ->
  pruned thr src = Return d ->
  num_attributes (uniques (iloc_from 4 d)) = [] ->
  fst (preprocess_data sqrt thr ns cs fv sc fn w) =
  fst (preprocess_data sqrt thr ns' cs fv' sc fn w).
Proof.
  intros Hsrc Hd Hnum.
  rewrite !preprocess_data_result, Hsrc, !(transform_unfold _ _ _ _ _ _ _ _ Hd).
  cbn zeta. rewrite Hnum. reflexivity.
Qed.

Lemma unused_num_strategy_is_ignored_witness :
  exists d,
    nth_error (heap (store_of third_missing)) bottle_df = Some third_missing /\
    pruned 70 third_missing = Return d /\
    num_attributes (uniques (iloc_from 4 d)) = [] /\
    fst (preprocess_data Num.Qsqrt 70 "mode" "most_frequent" (-999) "standard"
                         "prepared_data.csv" (store_of third_missing)) =
    fst (preprocess_data Num.Qsqrt 70 "mean" "most_frequent" 0 "standard"
                         "prepared_data.csv" (store_of third_missing)).
Proof.
  eexists. split; [reflexivity|]. split; [vm_compute; reflexivity|].
  split; [vm_compute; reflexivity|].
  eapply (unused_num_strategy_is_ignored
           Num.Qsqrt 70 "mode" "mean" "most_frequent" (-999)%Q 0%Q "standard"
           "prepared_data.csv" (store_of third_missing) third_missing _);
    [reflexivity | vm_compute; reflexivity | vm_compute; reflexivity].
Defined.

Lemma Pipeline_no_rows sqrt (imp : SimpleImputer) (s : Scaler) (X : ndarray) :
  nrows X = 0 -> Pipeline sqrt imp s X = Raise ValueError.
Proof.
  intros H. unfold Pipeline. now rewrite SimpleImputer_no_rows.
Qed.

Lemma features_are_classified (d : DataFrame) :
  skipn 4 (cols d) <> [] ->
  let u := uniques (iloc_from 4 d) in
  num_attributes u <> [] \/ cat_attributes u <> [].
Proof.
  intros Hne u.
  destruct (skipn 4 (cols d)) as [|[n c] rest] eqn:E; [congruence|].
  assert (Hn : In n (keys u)).
  { apply uniques_keys. unfold names, iloc_from. cbn [cols]. rewrite E.
    now left. }
  destruct (attributes_cover u n Hn) as [H|H]; [left|right];
    intros Hnil; rewrite Hnil in H; contradiction.
Qed.

(** X10: when the row filter leaves no row while there are feature
    columns, the imputers are handed a table without rows and the call
    raises [ValueError], whatever the strategies are. *)
Theorem no_row_left_raises_ValueError
        sqrt thr ns cs fv sc fn (w : world) (src d : DataFrame) :
  nth_error (heap w) bottle_df = Some src ->
  pruned thr src = Return d ->
  shape0 d = 0 ->
  skipn 4 (cols d) <> [] ->
  sc = "standard" \/ sc = "normal" ->
  fst (preprocess_data sqrt thr ns cs fv sc fn w) = Raise ValueError.
Proof.
  intros Hsrc Hd Hrows Hfeat Hsc.
  rewrite preprocess_data_result, Hsrc, (transform_unfold _ _ _ _ _ _ _ _ Hd).
  cbn zeta. destruct (scaler_chosen sc Hsc) as [scaler ->]. cbn [obind].
  pose proof (features_are_classified d Hfeat) as Hcls. cbn zeta in Hcls.
  set (u := uniques (iloc_from 4 d)) in *.
  set (f := column_of (cols (iloc_from 4 d))).
  set (imp := if String.eqb ns "constant" then _ else _).
  unfold ColumnTransformer_fit_transform.
  assert (Hcat : cat_attributes u <> [] ->
                 fit_transform_each
                   [("cat", SimpleImputer_fit_transform (mkSimpleImputer cs None),
                     cat_attributes u)]
                   (mkDataFrame (index d)
                      (map (fun l => (l, f l)) (num_attributes u) ++
                       map (fun l => (l, f l)) (cat_attributes u))) =
                 Raise ValueError).
  { intros Hne. destruct (cat_attributes u) as [|b cat] eqn:E; [congruence|].
    rewrite fit_transform_each_cons, getitem_select_r. cbn [obind].
    now rewrite SimpleImputer_no_rows. }
  destruct (num_attributes u) as [|a num] eqn:Enum.
  - destruct Hcls as [Hne|Hne]; [congruence|].
    change (fit_transform_each (("num", _, []) :: ?ts) ?X)
      with (fit_transform_each ts X).
    now rewrite (Hcat Hne).
  - rewrite fit_transform_each_cons, getitem_map. cbn [obind].
    now rewrite Pipeline_no_rows.
Qed.

Lemma no_row_left_raises_ValueError_witness :
  exists d,
    nth_error (heap (store_of no_target)) bottle_df = Some no_target /\
    pruned 100 no_target = Return d /\
    shape0 d = 0 /\ skipn 4 (cols d) <> [] /\
    fst (preprocess_data Num.Qsqrt 100 "mean" "most_frequent" (-999) "standard"
                         "prepared_data.csv" (store_of no_target)) =
    Raise ValueError.
Proof.
  eexists. split; [reflexivity|]. split; [vm_compute; reflexivity|].
  split; [reflexivity|]. split; [discriminate|].
  eapply (no_row_left_raises_ValueError
           Num.Qsqrt 100 "mean" "most_frequent" (-999)%Q "standard"
           "prepared_data.csv" (store_of no_target) no_target _);
    [reflexivity | vm_compute; reflexivity | reflexivity | discriminate |
     left; reflexivity].
Defined.

Lemma all_isna_sum_false (df : DataFrame) (nc : string * list cell) :
  In nc (cols df) -> isna_sum (snd nc) = 0 -> all_isna_sum df = false.
Proof.
  intros Hin H0. unfold all_isna_sum.
  destruct (forallb _ (cols df)) eqn:E; [|reflexivity].
  rewrite forallb_forall in E. specialize (E nc Hin). now rewrite H0 in E.
Qed.

Lemma pruned_target_complete (thr : Q) (src d : DataFrame) :
  pruned thr src = Return d ->
  exists c, In ("Salinity", c) (cols d) /\ isna_sum c = 0.
Proof.
  unfold pruned, dropna. intros H.
  destruct (get_column "Salinity" (cols (drop _ src))) as [c|] eqn:Hc;
    [|discriminate].
  apply Return_inj in H. subst d. exists (take (map notna c) c). split.
  - cbn [cols]. apply get_column_In. now rewrite get_column_mapped, Hc.
  - apply isna_sum_take_notna.
Qed.


Lemma combine_nil {A B : Type} (l : list A) (l' : list B) :
  length l = length l' -> combine l l' = [] -> l = [].
Proof. destruct l, l'; cbn; congruence. Qed.

(** The table handed to the final check always has a column without a
    blank: a column the imputers filled or, failing that, the target. *)
Lemma final_check_passes (thr : Q) (src d : DataFrame) (X : ndarray)
      (df : DataFrame) tnum tcat :
  pruned thr src = Return d ->
  completes tnum -> completes tcat ->
  let u := uniques (iloc_from 4 d) in
  forall cs0,
  ColumnTransformer_fit_transform
    [("num", tnum, num_attributes u); ("cat", tcat, cat_attributes u)]
    (mkDataFrame (index d) cs0) = Return X ->
  DataFrame_of_array X (num_attributes u ++ cat_attributes u) = Return df ->
  concat_axis1 (reset_index (iloc_upto 4 d)) (reset_index df) =
  mkDataFrame (RangeIndex (shape0 d))
              (firstn 4 (cols d) ++
               combine (num_attributes u ++ cat_attributes u) (acols X)) /\
  length (acols X) = length (num_attributes u ++ cat_attributes u) /\
  (forall c, In c (acols X) -> isna_sum c = 0) /\
  all_isna_sum (concat_axis1 (reset_index (iloc_upto 4 d)) (reset_index df)) = false.
Proof.
  intros Hd Hnum Hcat u cs0 HX Hdf.
  unfold ColumnTransformer_fit_transform in HX.
  destruct (fit_transform_each _ _) as [out|e] eqn:Hout; cbn [obind] in HX;
    [|discriminate].
  apply Return_inj in HX. subst X.
  assert (Hcomplete : forall c, In c out -> isna_sum c = 0).
  { refine (fit_transform_each_complete _ _ _ _ Hout).
    repeat constructor; assumption. }
  unfold DataFrame_of_array in Hdf. cbn [acols nrows] in Hdf.
  destruct (Nat.eqb _ _) eqn:Hlen; [|discriminate].
  apply Nat.eqb_eq in Hlen. apply Return_inj in Hdf. subst df.
  assert (Heq : concat_axis1 (reset_index (iloc_upto 4 d))
                  (reset_index (mkDataFrame (RangeIndex (shape0 (mkDataFrame (index d) cs0)))
                     (combine (num_attributes u ++ cat_attributes u) out))) =
                mkDataFrame (RangeIndex (shape0 d))
                  (firstn 4 (cols d) ++
                   combine (num_attributes u ++ cat_attributes u) out)).
  { unfold reset_index, iloc_upto, shape0. cbn [index cols].
    now rewrite length_RangeIndex, concat_axis1_aligned. }
  cbn [acols]. split; [exact Heq|]. split; [exact Hlen|]. split; [exact Hcomplete|].
  rewrite Heq.
  destruct (combine (num_attributes u ++ cat_attributes u) out) as [|[n c] rest] eqn:E.
  - apply combine_nil in E; [|now symmetry].
    assert (Hnil : skipn 4 (cols d) = []).
    { destruct (skipn 4 (cols d)) as [|x xs] eqn:Es; [reflexivity|].
      exfalso.
      assert (Hne : skipn 4 (cols d) <> []) by (rewrite Es; discriminate).
      destruct (features_are_classified d Hne) as [H|H]; fold u in H;
        apply app_eq_nil in E; destruct E; contradiction. }
    destruct (pruned_target_complete thr src d Hd) as [c [Hin Hc]].
    apply (all_isna_sum_false _ ("Salinity", c)); [|exact Hc].
    cbn [cols]. rewrite app_nil_r.
    rewrite <- (firstn_skipn 4 (cols d)), Hnil, app_nil_r in Hin. exact Hin.
  - apply (all_isna_sum_false _ (n, c)).
    + cbn [cols]. apply in_or_app. right. now left.
    + cbn [snd]. apply Hcomplete.
      assert (Hin : In (n, c) (combine (num_attributes u ++ cat_attributes u) out)).
      { rewrite E. now left. }
      now apply in_combine_r in Hin.
Qed.

(* ================================================================== *)
(** ** What a call can do *)
(* ================================================================== *)


Lemma names_combine (l : list string) (l' : list (list cell)) :
  length l' = length l -> map fst (combine l l') = l.
Proof. intros H. now apply fst_combine. Qed.

(** X12: the layout of a returned table.  Its rows are labelled 0, 1,
    ... up to the number of rows of the pruned table; its labels are the
    first four of the pruned table, then [num_attributes], then
    [cat_attributes]; its first columns are the first four columns of the
    pruned table, cell for cell; and it has the same labels as the pruned
    table. *)
Theorem returned_table_layout
        sqrt thr ns cs fv sc fn (w : world) (src t : DataFrame) :
  nth_error (heap w) bottle_df = Some src ->
  fst (preprocess_data sqrt thr ns cs fv sc fn w) = Return t ->
  exists d,
    pruned thr src = Return d /\
    let u := uniques (iloc_from 4 d) in
    index t = RangeIndex (shape0 d) /\
    names t = firstn 4 (names d) ++ num_attributes u ++ cat_attributes u /\
    firstn (length (firstn 4 (cols d))) (cols t) = firstn 4 (cols d) /\
    (forall n, In n (names t) <-> In n (names d)).
Proof.
  intros Hsrc Ht. rewrite preprocess_data_result, Hsrc in Ht.
  destruct (pruned thr src) as [d|e] eqn:Hd.
  2:{ unfold transform in Ht. rewrite Hd in Ht. discriminate. }
  rewrite (transform_unfold _ _ _ _ _ _ _ _ Hd) in Ht. cbn zeta in Ht.
  exists d. split; [reflexivity|]. cbn zeta.
  destruct (if String.eqb sc "standard" then _ else _) as [scaler|e];
    cbn [obind] in Ht; [|discriminate].
  destruct (ColumnTransformer_fit_transform _ _) as [X|e] eqn:HX;
    cbn [obind] in Ht; [|discriminate].
  destruct (DataFrame_of_array _ _) as [df|e] eqn:Hdf;
    cbn [obind] in Ht; [|discriminate].
  destruct (final_check_passes thr src d X df _ _ Hd
              (Pipeline_completes _ _ _) (SimpleImputer_completes _)
              _ HX Hdf) as [Heq [Hlen [_ Hpass]]].
  rewrite Hpass in Ht. apply Return_inj in Ht. subst t. rewrite Heq.
  cbn [index cols].
  assert (Hnames : names (mkDataFrame (RangeIndex (shape0 d))
                     (firstn 4 (cols d) ++
                      combine (num_attributes (uniques (iloc_from 4 d)) ++
                               cat_attributes (uniques (iloc_from 4 d))) (acols X))) =
                   firstn 4 (names d) ++
                   num_attributes (uniques (iloc_from 4 d)) ++
                   cat_attributes (uniques (iloc_from 4 d))).
  { unfold names. cbn [cols]. rewrite map_app, names_combine by exact Hlen.
    now rewrite firstn_map. }
  split; [reflexivity|]. split; [exact Hnames|]. split.
  - rewrite firstn_app, Nat.sub_diag, firstn_all. cbn. apply app_nil_r.
  - intros n. rewrite Hnames. rewrite <- (firstn_skipn 4 (names d)) at 2.
    rewrite !in_app_iff.
    assert (Hfeat : In n (skipn 4 (names d)) <->
                    In n (num_attributes (uniques (iloc_from 4 d))) \/
                    In n (cat_attributes (uniques (iloc_from 4 d)))).
    { unfold names. rewrite <- map_skipn.
      change (map fst (skipn 4 (cols d))) with (names (iloc_from 4 d)).
      rewrite <- uniques_keys. split.
      - apply attributes_cover.
      - intros [H|H]; [now apply num_attributes_keys | now apply cat_attributes_keys]. }
    tauto.
Qed.

Lemma returned_table_layout_witness :
  exists t,
    nth_error (heap (store_of mixed)) bottle_df = Some mixed /\
    fst (preprocess_data Num.Qsqrt 70 "mean" "most_frequent" (-999) "normal"
                         "prepared_data.csv" (store_of mixed)) = Return t /\
    exists d,
      pruned 70 mixed = Return d /\
      let u := uniques (iloc_from 4 d) in
      index t = RangeIndex (shape0 d) /\
      names t = firstn 4 (names d) ++ num_attributes u ++ cat_attributes u /\
      firstn (length (firstn 4 (cols d))) (cols t) = firstn 4 (cols d) /\
      (forall n, In n (names t) <-> In n (names d)).
Proof.
  eexists. split; [reflexivity|]. split; [vm_compute; reflexivity|].
  apply (returned_table_layout
           Num.Qsqrt 70 "mean" "most_frequent" (-999)%Q "normal"
           "prepared_data.csv" (store_of mixed) mixed);
    [reflexivity | vm_compute; reflexivity].
Defined.

(* ================================================================== *)
(** ** The columns of a returned table *)
(* ================================================================== *)

Lemma SimpleImputer_inv (imp : SimpleImputer) (X Y : ndarray) :
  SimpleImputer_fit_transform imp X = Return Y ->
  Y = mkArray (nrows X) (impute imp (acols X)).
Proof.
  unfold SimpleImputer_fit_transform.
  destruct (valid_strategy (strategy imp)); [|discriminate].
  destruct (check_array X) as [X'|e] eqn:E; cbn [obind]; [|discriminate].
  apply check_array_inv in E. subst X'. intros H. now apply Return_inj in H.
Qed.

Lemma Pipeline_inv sqrt (imp : SimpleImputer) (s : Scaler) (X Y : ndarray) :
  Pipeline sqrt imp s X = Return Y ->
  Y = mkArray (nrows X)
              (map (fun c => scaler_transform (scaler_fit sqrt s c) c)
                   (impute imp (acols X))).
Proof.
  unfold Pipeline.
  destruct (SimpleImputer_fit_transform imp X) as [X1|e] eqn:E1;
    cbn [obind]; [|discriminate].
  apply SimpleImputer_inv in E1. subst X1. unfold scaler_fit_transform.
  destruct (check_array _) as [X2|e] eqn:E2; cbn [obind]; [|discriminate].
  apply check_array_inv in E2. subst X2. cbn [nrows acols].
  intros H. now apply Return_inj in H.
Qed.

Lemma snd_select (f : string -> list cell) (ls : list string) :
  map snd (map (fun l => (l, f l)) ls) = map f ls.
Proof. rewrite map_map. reflexivity. Qed.

(** What the column transformer of line 167 returns: the scaled imputed
    continuous columns, then the imputed categorical columns. *)
Lemma full_pipeline_inv sqrt (impn impc : SimpleImputer) (s : Scaler)
      (num cat : list string) (f : string -> list cell) (ix : list Z)
      (X : ndarray) :
  ColumnTransformer_fit_transform
    [("num", Pipeline sqrt impn s, num);
     ("cat", SimpleImputer_fit_transform impc, cat)]
    (mkDataFrame ix (map (fun l => (l, f l)) num ++ map (fun l => (l, f l)) cat)) =
  Return X ->
  acols X =
  map (fun c => scaler_transform (scaler_fit sqrt s c) c)
      (impute impn (map f num)) ++
  impute impc (map f cat).
Proof.
  unfold ColumnTransformer_fit_transform. set (df := mkDataFrame ix _).
  assert (Hc : forall out,
             fit_transform_each [("cat", SimpleImputer_fit_transform impc, cat)] df =
             Return out ->
             out = impute impc (map f cat)).
  { intros out. destruct cat as [|b cat].
    - cbn. intros H. now apply Return_inj in H.
    - rewrite fit_transform_each_cons. unfold df. rewrite getitem_select_r.
      cbn [obind]. rewrite snd_select.
      destruct (SimpleImputer_fit_transform impc _) as [Y|e] eqn:EY;
        cbn [obind]; [|discriminate].
      apply SimpleImputer_inv in EY. subst Y. cbn [fit_transform_each obind acols].
      intros H. apply Return_inj in H. subst out. apply app_nil_r. }
  destruct num as [|a num].
  - change (fit_transform_each (("num", _, []) :: ?ts) ?Y)
      with (fit_transform_each ts Y).
    destruct (fit_transform_each _ df) as [out|e] eqn:E; cbn [obind];
      [|discriminate].
    intros H. apply Return_inj in H. subst X. cbn [acols map impute app].
    now apply Hc.
  - rewrite fit_transform_each_cons. unfold df at 1. rewrite getitem_map.
    cbn [obind]. rewrite snd_select.
    destruct (Pipeline sqrt impn s _) as [Y|e] eqn:EY; cbn [obind]; [|discriminate].
    apply Pipeline_inv in EY. subst Y. cbn [acols].
    destruct (fit_transform_each _ df) as [out|e] eqn:E; cbn [obind];
      [|discriminate].
    intros H. apply Return_inj in H. subst X. cbn [acols].
    now rewrite (Hc out eq_refl).
Qed.

Lemma impute_In (imp : SimpleImputer) (X : list (list cell)) (c' : list cell) :
  In c' (impute imp X) -> exists c v, In c X /\ c' = fillna v c.
Proof.
  induction X as [|x X IH]; cbn; [tauto|].
  destruct (statistic imp x) as [v|].
  - intros [<-|H]; [exists x, v; tauto|].
    destruct (IH H) as [c [v' [Hc ->]]]. exists c, v'. tauto.
  - intros H. destruct (IH H) as [c [v' [Hc ->]]]. exists c, v'. tauto.
Qed.

Lemma length_impute (imp : SimpleImputer) (X : list (list cell)) :
  length (impute imp X) <= length X.
Proof.
  induction X as [|x X IH]; cbn; [lia|].
  destruct (statistic imp x); cbn; lia.
Qed.

Lemma impute_full (imp : SimpleImputer) (X : list (list cell)) :
  length (impute imp X) = length X ->
  impute imp X = map (fun c => fillna (fill_of imp c) c) X /\
  (forall c, In c X -> statistic imp c = Some (fill_of imp c)).
Proof.
  induction X as [|x X IH]; cbn; intros H; [tauto|].
  unfold fill_of at 1 3. destruct (statistic imp x) as [v|] eqn:E.
  - cbn in H. destruct (IH ltac:(lia)) as [-> Hall]. split; [reflexivity|].
    intros c [<-|Hc]; [unfold fill_of; now rewrite E | now apply Hall].
  - pose proof (length_impute imp X). lia.
Qed.

Lemma length_fillna (v : Q) (c : list cell) : length (fillna v c) = length c.
Proof. unfold fillna. apply length_map. Qed.

Lemma length_scaler_transform (p : fitted) (c : list cell) :
  length (scaler_transform p c) = length c.
Proof. unfold scaler_transform. apply length_map. Qed.

(** A returned table, column by column: the first four columns of the
    pruned table, each continuous column imputed then scaled, each
    categorical column imputed; no column was discarded on the way. *)
Lemma returned_inv sqrt thr ns cs fv sc (src t : DataFrame) :
  transform sqrt thr ns cs fv sc src = Return t ->
  exists d scaler,
    pruned thr src = Return d /\
    (sc = "standard" /\ scaler = StandardScaler \/
     sc = "normal" /\ scaler = MinMaxScaler) /\
    let u := uniques (iloc_from 4 d) in
    let f := column_of (cols (iloc_from 4 d)) in
    let impn := if String.eqb ns "constant"
                then mkSimpleImputer ns (Some fv)
                else mkSimpleImputer ns None in
    let impc := mkSimpleImputer cs None in
    let hnum l := scaler_transform
                    (scaler_fit sqrt scaler (fillna (fill_of impn (f l)) (f l)))
                    (fillna (fill_of impn (f l)) (f l)) in
    let hcat l := fillna (fill_of impc (f l)) (f l) in
    (forall l, In l (num_attributes u) ->
               statistic impn (f l) = Some (fill_of impn (f l))) /\
    (forall l, In l (cat_attributes u) ->
               statistic impc (f l) = Some (fill_of impc (f l))) /\
    t = mkDataFrame (RangeIndex (shape0 d))
          (firstn 4 (cols d) ++
           combine (num_attributes u ++ cat_attributes u)
                   (map hnum (num_attributes u) ++ map hcat (cat_attributes u))).
Proof.
  intros Ht.
  destruct (pruned thr src) as [d|e] eqn:Hd.
  2:{ unfold transform in Ht. rewrite Hd in Ht. discriminate. }
  rewrite (transform_unfold _ _ _ _ _ _ _ _ Hd) in Ht. cbn zeta in Ht.
  assert (Hsc : exists scaler,
             (sc = "standard" /\ scaler = StandardScaler \/
              sc = "normal" /\ scaler = MinMaxScaler) /\
             (if String.eqb sc "standard" then Return StandardScaler
              else if String.eqb sc "normal" then Return MinMaxScaler
                   else Raise (UnboundLocalError "scaler")) = Return scaler).
  { destruct (String.eqb sc "standard") eqn:E1.
    - apply String.eqb_eq in E1. exists StandardScaler. tauto.
    - destruct (String.eqb sc "normal") eqn:E2.
      + apply String.eqb_eq in E2. exists MinMaxScaler. tauto.
      + cbn [obind] in Ht. discriminate. }
  destruct Hsc as [scaler [Hsc Hscaler]]. rewrite Hscaler in Ht. cbn [obind] in Ht.
  exists d, scaler. split; [reflexivity|]. split; [exact Hsc|]. cbn zeta.
  set (u := uniques (iloc_from 4 d)) in *.
  set (f := column_of (cols (iloc_from 4 d))) in *.
  set (impn := if String.eqb ns "constant" then _ else _) in *.
  set (impc := mkSimpleImputer cs None) in *.
  destruct (ColumnTransformer_fit_transform _ _) as [X|e] eqn:HX;
    cbn [obind] in Ht; [|discriminate].
  destruct (DataFrame_of_array _ _) as [df|e] eqn:Hdf;
    cbn [obind] in Ht; [|discriminate].
  destruct (final_check_passes thr src d X df _ _ Hd
              (Pipeline_completes _ _ _) (SimpleImputer_completes _)
              _ HX Hdf) as [Heq [Hlen [_ Hpass]]].
  rewrite Hpass in Ht. apply Return_inj in Ht. subst t. fold u in Heq, Hlen.
  apply full_pipeline_inv in HX. rewrite HX in Hlen.
  rewrite !length_app, length_map in Hlen.
  pose proof (length_impute impn (map f (num_attributes u))) as L1.
  pose proof (length_impute impc (map f (cat_attributes u))) as L2.
  rewrite length_map in L1, L2.
  destruct (impute_full impn (map f (num_attributes u))) as [En Hn];
    [rewrite length_map; lia|].
  destruct (impute_full impc (map f (cat_attributes u))) as [Ec Hc];
    [rewrite length_map; lia|].
  split; [intros l Hl; apply Hn; now apply in_map|].
  split; [intros l Hl; apply Hc; now apply in_map|].
  rewrite Heq, HX, En, Ec, !map_map. reflexivity.
Qed.

Lemma length_take {A B : Type} (m : list bool) (l : list A) (l' : list B) :
  length l = length l' -> length (take m l) = length (take m l').
Proof.
  revert l l'. induction m as [|[|] m IH]; intros [|x l] [|y l'] H;
    cbn in *; try discriminate; try reflexivity.
  - f_equal. apply IH. lia.
  - apply IH. lia.
Qed.

Lemma rectangular_intro (df : DataFrame) :
  (forall nc, In nc (cols df) -> length (snd nc) = shape0 df) ->
  rectangular df = true.
Proof.
  intros H. unfold rectangular. apply forallb_forall. intros nc Hin.
  now apply Nat.eqb_eq, H.
Qed.

Lemma pruned_rectangular (thr : Q) (src d : DataFrame) :
  rectangular src = true -> pruned thr src = Return d -> rectangular d = true.
Proof.
  intros Hrect. unfold pruned, dropna.
  destruct (get_column "Salinity" _) as [c|]; [|discriminate].
  intros H. apply Return_inj in H. subst d. apply rectangular_intro.
  cbn [cols]. intros nc Hin. apply in_map_iff in Hin.
  destruct Hin as [[n y] [<- Hin]]. cbn [fst snd]. unfold shape0. cbn [index].
  apply length_take. unfold drop in Hin. cbn [cols] in Hin.
  apply filter_In in Hin. destruct Hin as [Hin _].
  exact (rectangular_In src (n, y) Hrect Hin).
Qed.

Lemma column_of_length (d : DataFrame) (l : string) :
  rectangular d = true -> In l (names (iloc_from 4 d)) ->
  length (column_of (cols (iloc_from 4 d)) l) = shape0 d.
Proof.
  intros Hrect Hl. unfold column_of.
  destruct (get_column l (cols (iloc_from 4 d))) as [c|] eqn:E.
  - apply get_column_In in E. unfold iloc_from in E. cbn [cols] in E.
    apply In_skipn in E. exact (rectangular_In d (l, c) Hrect E).
  - apply get_column_None in E. contradiction.
Qed.

Lemma firstn_In {A : Type} (k : nat) (l : list A) (x : A) :
  In x (firstn k l) -> In x l.
Proof.
  intros H. rewrite <- (firstn_skipn k l). apply in_or_app. now left.
Qed.

Lemma shape0_RangeIndex (n : nat) (cs : list (string * list cell)) :
  shape0 (mkDataFrame (RangeIndex n) cs) = n.
Proof. unfold shape0. cbn [index]. apply length_RangeIndex. Qed.

(** X13: a rectangular source gives a rectangular result: every column
    of a returned table has one cell per row label. *)
Theorem returned_table_is_rectangular
        sqrt thr ns cs fv sc fn (w : world) (src t : DataFrame) :
  nth_error (heap w) bottle_df = Some src ->
  rectangular src = true ->
  fst (preprocess_data sqrt thr ns cs fv sc fn w) = Return t ->
  rectangular t = true.
Proof.
  intros Hsrc Hrect Ht. rewrite preprocess_data_result, Hsrc in Ht.
  apply returned_inv in Ht.
  destruct Ht as [d [scaler [Hd [_ Ht]]]]. cbn zeta in Ht.
  destruct Ht as [_ [_ ->]].
  pose proof (pruned_rectangular thr src d Hrect Hd) as Hrd.
  apply rectangular_intro. rewrite shape0_RangeIndex. cbn [cols].
  intros nc Hin. apply in_app_or in Hin.
  destruct Hin as [Hin|Hin].
  - apply firstn_In in Hin. exact (rectangular_In d nc Hrd Hin).
  - destruct nc as [n c]. apply in_combine_r in Hin. cbn [snd].
    apply in_app_or in Hin. destruct Hin as [Hin|Hin];
      apply in_map_iff in Hin; destruct Hin as [l [<- Hl]].
    + rewrite length_scaler_transform, length_fillna.
      apply column_of_length; [assumption|].
      now apply uniques_keys, num_attributes_keys.
    + rewrite length_fillna.
      apply column_of_length; [assumption|].
      now apply uniques_keys, cat_attributes_keys.
Qed.

Lemma returned_table_is_rectangular_witness :
  exists t,
    nth_error (heap (store_of mixed)) bottle_df = Some mixed /\
    rectangular mixed = true /\
    fst (preprocess_data Num.Qsqrt 70 "mean" "most_frequent" (-999) "normal"
                         "prepared_data.csv" (store_of mixed)) = Return t /\
    rectangular t = true.
Proof.
  eexists. split; [reflexivity|]. split; [vm_compute; reflexivity|].
  split; [vm_compute; reflexivity|].
  apply (returned_table_is_rectangular
           Num.Qsqrt 70 "mean" "most_frequent" (-999)%Q "normal"
           "prepared_data.csv" (store_of mixed) mixed);
    [reflexivity | vm_compute; reflexivity | vm_compute; reflexivity].
Defined.

Lemma dict_get_set (k x : string) (v : nat) (d : dict) :
  dict_get x (dict_set k v d) = if String.eqb x k then Some v else dict_get x d.
Proof.
  induction d as [|[k' v'] d IH]; cbn.
  - reflexivity.
  - destruct (String.eqb k k') eqn:E; cbn.
    + apply String.eqb_eq in E. subst k'. now destruct (String.eqb x k).
    + rewrite IH. destruct (String.eqb x k') eqn:E'; [|reflexivity].
      apply String.eqb_eq in E'. subst k'.
      destruct (String.eqb x k) eqn:E''; [|reflexivity].
      apply String.eqb_eq in E''. subst. rewrite String.eqb_refl in E.
      discriminate.
Qed.

Lemma uniques_fold_get (new_data : DataFrame) (ns : list string) (u : dict)
      (x : string) :
  (forall n, In n ns -> In n (names new_data)) ->
  dict_get x (fold_left (fun u column =>
                           match get_column column (cols new_data) with
                           | Some c => dict_set column (nunique c) u
                           | None => u
                           end) ns u) =
  if mem x ns then Some (unique_count new_data x) else dict_get x u.
Proof.
  revert u. induction ns as [|n ns IH]; intros u Hin; cbn [fold_left].
  - reflexivity.
  - rewrite IH by (intros m Hm; apply Hin; now right).
    unfold mem. cbn [existsb]. fold (mem x ns).
    destruct (mem x ns); [now rewrite orb_true_r|]. rewrite orb_false_r.
    destruct (get_column n (cols new_data)) as [c|] eqn:E.
    + rewrite dict_get_set. destruct (String.eqb x n) eqn:Ex; [|reflexivity].
      apply String.eqb_eq in Ex. subst. unfold unique_count. now rewrite E.
    + apply get_column_None in E. exfalso. apply E, Hin. now left.
Qed.

(** Whatever the labels, the dictionary maps a label to the number of
    distinct values of the column that label selects. *)
Lemma uniques_get (new_data : DataFrame) (x : string) :
  In x (names new_data) ->
  dict_get x (uniques new_data) = Some (unique_count new_data x).
Proof.
  intros H. unfold uniques. rewrite uniques_fold_get by auto.
  apply mem_In in H. now rewrite H.
Qed.

Lemma attributes_disjoint (u : dict) (n : string) :
  In n (num_attributes u) -> In n (cat_attributes u) -> False.
Proof.
  unfold num_attributes, cat_attributes. rewrite !filter_In.
  intros [_ H1] [_ H2]. destruct (dict_get n u) as [v|]; [|discriminate].
  apply Nat.ltb_lt in H1. apply Nat.leb_le in H2. lia.
Qed.

Lemma statistic_cases (imp : SimpleImputer) (c : list cell) (v : Q) :
  statistic imp c = Some v ->
  (strategy imp = "mean" -> v = Num.mean (observed c)) /\
  (strategy imp = "median" -> v = Num.median (observed c)) /\
  (strategy imp = "most_frequent" -> v = Num.most_frequent (observed c)) /\
  (strategy imp = "constant" ->
   v = match fill_value imp with Some x => x | None => 0%Q end).
Proof.
  unfold statistic. intros H. repeat split; intros E; rewrite E in H;
    cbn [String.eqb Ascii.eqb Bool.eqb] in H;
    try (destruct (observed c); [discriminate|]); congruence.
Qed.

Lemma statistic_none (imp : SimpleImputer) (c : list cell) :
  strategy imp <> "constant" -> observed c = [] -> statistic imp c = None.
Proof.
  intros Hs Ho. unfold statistic. apply String.eqb_neq in Hs.
  now rewrite Hs, Ho.
Qed.

Lemma get_column_combine_r (h1 h2 : string -> list cell) (ls ls' : list string)
      (n : string) :
  ~ In n ls -> In n ls' ->
  get_column n (combine (ls ++ ls') (map h1 ls ++ map h2 ls')) = Some (h2 n).
Proof.
  intros Hno Hin. induction ls as [|m ls IH]; cbn [app map combine].
  - clear Hno. induction ls' as [|m ls' IH]; cbn; [contradiction|].
    destruct (String.eqb n m) eqn:E.
    + apply String.eqb_eq in E. now subst.
    + apply String.eqb_neq in E. apply IH. destruct Hin; congruence.
  - cbn [get_column]. destruct (String.eqb n m) eqn:E.
    + apply String.eqb_eq in E. subst. exfalso. apply Hno. now left.
    + apply IH. intros H. apply Hno. now right.
Qed.

Lemma feature_column (d : DataFrame) (n : string) (c : list cell) :
  NoDup (names d) -> In n (names (iloc_from 4 d)) ->
  get_column n (cols d) = Some c ->
  get_column n (firstn 4 (cols d)) = None /\
  column_of (cols (iloc_from 4 d)) n = c.
Proof.
  intros Hnd Hin Hc.
  destruct (get_column_skipn 4 (cols d) n Hnd) as [Hno Heq].
  { unfold names, iloc_from in Hin. exact Hin. }
  split; [exact Hno|]. unfold column_of, iloc_from. cbn [cols].
  now rewrite <- Heq, Hc.
Qed.

(** X14: the continuous columns of a returned table, for any numerical
    strategy.  Each is the scaler fitted on, and applied to, the pruned
    column whose blanks were replaced by one value: the mean, the median
    or the most frequent of its observed values, or [fill_value]. *)
Theorem continuous_columns_are_imputed_then_scaled
        sqrt thr ns cs fv sc fn (w : world) (src t : DataFrame) :
  nth_error (heap w) bottle_df = Some src ->
  NoDup (names src) ->
  fst (preprocess_data sqrt thr ns cs fv sc fn w) = Return t ->
  exists d scaler,
    pruned thr src = Return d /\
    (sc = "standard" /\ scaler = StandardScaler \/
     sc = "normal" /\ scaler = MinMaxScaler) /\
    forall n c,
      In n (num_attributes (uniques (iloc_from 4 d))) ->
      get_column n (cols d) = Some c ->
      exists v,
        get_column n (cols t) =
        Some (scaler_transform (scaler_fit sqrt scaler (fillna v c)) (fillna v c)) /\
        (ns = "mean" -> v = Num.mean (observed c)) /\
        (ns = "median" -> v = Num.median (observed c)) /\
        (ns = "most_frequent" -> v = Num.most_frequent (observed c)) /\
        (ns = "constant" -> v = fv).
Proof.
  intros Hsrc Hnd Ht. rewrite preprocess_data_result, Hsrc in Ht.
  apply returned_inv in Ht.
  destruct Ht as [d [scaler [Hd [Hsc Ht]]]]. cbn zeta in Ht.
  destruct Ht as [Hn [_ ->]].
  exists d, scaler. split; [exact Hd|]. split; [exact Hsc|].
  intros n c Hin Hc.
  assert (Hndd : NoDup (names d)).
  { rewrite (names_pruned _ _ _ Hd). now apply NoDup_filter. }
  destruct (feature_column d n c Hndd) as [Hno Hf]; [|assumption|].
  { now apply uniques_keys, num_attributes_keys. }
  set (impn := if String.eqb ns "constant" then _ else _) in *.
  exists (fill_of impn c). split.
  - cbn [cols]. rewrite get_column_app, Hno.
    rewrite (get_column_combine
               (fun l => scaler_transform
                  (scaler_fit sqrt scaler
                     (fillna (fill_of impn (column_of (cols (iloc_from 4 d)) l))
                             (column_of (cols (iloc_from 4 d)) l)))
                  (fillna (fill_of impn (column_of (cols (iloc_from 4 d)) l))
                          (column_of (cols (iloc_from 4 d)) l)))) by assumption.
    now rewrite Hf.
  - specialize (Hn n Hin). rewrite Hf in Hn.
    destruct (statistic_cases impn c _ Hn) as [H1 [H2 [H3 H4]]].
    unfold impn in H1, H2, H3, H4. rewrite numerical_imputer_strategy in *.
    repeat split; try assumption.
    intros E. specialize (H4 E). subst ns. exact H4.
Qed.

Lemma continuous_columns_are_imputed_then_scaled_witness :
  exists t,
    nth_error (heap (store_of mixed)) bottle_df = Some mixed /\
    NoDup (names mixed) /\
    fst (preprocess_data Num.Qsqrt 70 "mean" "most_frequent" (-999) "normal"
                         "prepared_data.csv" (store_of mixed)) = Return t /\
    exists d scaler,
      pruned 70 mixed = Return d /\
      ("normal" = "standard" /\ scaler = StandardScaler \/
       "normal" = "normal" /\ scaler = MinMaxScaler) /\
      forall n c,
        In n (num_attributes (uniques (iloc_from 4 d))) ->
        get_column n (cols d) = Some c ->
        exists v,
          get_column n (cols t) =
          Some (scaler_transform (scaler_fit Num.Qsqrt scaler (fillna v c))
                                 (fillna v c)) /\
          ("mean" = "mean" -> v = Num.mean (observed c)) /\
          ("mean" = "median" -> v = Num.median (observed c)) /\
          ("mean" = "most_frequent" -> v = Num.most_frequent (observed c)) /\
          ("mean" = "constant" -> v = (-999)%Q).
Proof.
  eexists. split; [reflexivity|]. split.
  { apply distinct_labels_NoDup. vm_compute. reflexivity. }
  split; [vm_compute; reflexivity|].
  apply (continuous_columns_are_imputed_then_scaled
           Num.Qsqrt 70 "mean" "most_frequent" (-999)%Q "normal"
           "prepared_data.csv" (store_of mixed) mixed).
  - reflexivity.
  - apply distinct_labels_NoDup. vm_compute. reflexivity.
  - vm_compute. reflexivity.
Defined.

(** X15: the categorical columns of a returned table are imputed and
    never scaled.  Each is the pruned column, its observed cells as they
    were and its blanks replaced by one value: the most frequent (or the
    mean, or the median) of the observed values, or 0 for ["constant"],
    since [fill_value] is not passed to the categorical imputer. *)
Theorem categorical_columns_are_imputed_not_scaled
        sqrt thr ns cs fv sc fn (w : world) (src t : DataFrame) :
  nth_error (heap w) bottle_df = Some src ->
  NoDup (names src) ->
  fst (preprocess_data sqrt thr ns cs fv sc fn w) = Return t ->
  exists d,
    pruned thr src = Return d /\
    forall n c,
      In n (cat_attributes (uniques (iloc_from 4 d))) ->
      get_column n (cols d) = Some c ->
      exists v,
        get_column n (cols t) = Some (fillna v c) /\
        (cs = "mean" -> v = Num.mean (observed c)) /\
        (cs = "median" -> v = Num.median (observed c)) /\
        (cs = "most_frequent" -> v = Num.most_frequent (observed c)) /\
        (cs = "constant" -> v = 0%Q).
Proof.
  intros Hsrc Hnd Ht. rewrite preprocess_data_result, Hsrc in Ht.
  apply returned_inv in Ht.
  destruct Ht as [d [scaler [Hd [Hsc Ht]]]]. cbn zeta in Ht.
  destruct Ht as [_ [Hcat ->]].
  exists d. split; [exact Hd|].
  intros n c Hin Hc.
  assert (Hndd : NoDup (names d)).
  { rewrite (names_pruned _ _ _ Hd). now apply NoDup_filter. }
  destruct (feature_column d n c Hndd) as [Hno Hf]; [|assumption|].
  { now apply uniques_keys, cat_attributes_keys. }
  exists (fill_of (mkSimpleImputer cs None) c). split.
  - cbn [cols]. rewrite get_column_app, Hno.
    rewrite (get_column_combine_r _
               (fun l => fillna (fill_of (mkSimpleImputer cs None)
                                         (column_of (cols (iloc_from 4 d)) l))
                                (column_of (cols (iloc_from 4 d)) l))).
    + now rewrite Hf.
    + intros H. exact (attributes_disjoint _ n H Hin).
    + assumption.
  - specialize (Hcat n Hin). rewrite Hf in Hcat.
    exact (statistic_cases (mkSimpleImputer cs None) c _ Hcat).
Qed.

Lemma categorical_columns_are_imputed_not_scaled_witness :
  exists t,
    nth_error (heap (store_of mixed)) bottle_df = Some mixed /\
    NoDup (names mixed) /\
    fst (preprocess_data Num.Qsqrt 70 "mean" "most_frequent" (-999) "normal"
                         "prepared_data.csv" (store_of mixed)) = Return t /\
    exists d,
      pruned 70 mixed = Return d /\
      forall n c,
        In n (cat_attributes (uniques (iloc_from 4 d))) ->
        get_column n (cols d) = Some c ->
        exists v,
          get_column n (cols t) = Some (fillna v c) /\
          ("most_frequent" = "mean" -> v = Num.mean (observed c)) /\
          ("most_frequent" = "median" -> v = Num.median (observed c)) /\
          ("most_frequent" = "most_frequent" ->
           v = Num.most_frequent (observed c)) /\
          ("most_frequent" = "constant" -> v = 0%Q).
Proof.
  eexists. split; [reflexivity|]. split.
  { apply distinct_labels_NoDup. vm_compute. reflexivity. }
  split; [vm_compute; reflexivity|].
  apply (categorical_columns_are_imputed_not_scaled
           Num.Qsqrt 70 "mean" "most_frequent" (-999)%Q "normal"
           "prepared_data.csv" (store_of mixed) mixed).
  - reflexivity.
  - apply distinct_labels_NoDup. vm_compute. reflexivity.
  - vm_compute. reflexivity.
Defined.

Lemma past_row_filter sqrt thr ns cs fv sc (src d : DataFrame) :
  pruned thr src = Return d ->
  sc = "standard" \/ sc = "normal" ->
  (exists t, transform sqrt thr ns cs fv sc src = Return t) \/
  transform sqrt thr ns cs fv sc src = Raise ValueError.
Proof.
  intros Hd Hsc. rewrite (transform_unfold _ _ _ _ _ _ _ _ Hd). cbn zeta.
  destruct (scaler_chosen sc Hsc) as [scaler ->]. cbn [obind].
  destruct (ColumnTransformer_fit_transform _ _) as [X|e] eqn:HX; cbn [obind].
  2:{ apply full_pipeline_raises in HX;
        [subst e; tauto | apply Pipeline_raises | apply SimpleImputer_raises]. }
  destruct (DataFrame_of_array _ _) as [df|e] eqn:Hdf; cbn [obind].
  2:{ unfold DataFrame_of_array in Hdf. destruct (Nat.eqb _ _);
        [discriminate | injection Hdf as <-; tauto]. }
  destruct (final_check_passes thr src d X df _ _ Hd
              (Pipeline_completes _ _ _) (SimpleImputer_completes _)
              _ HX Hdf) as [_ [_ [_ ->]]]. eauto.
Qed.

(** X16: a feature column that has no value left after the row filter
    is classified as categorical (it has 0 distinct values); unless
    [cat_strategy] is ["constant"] the imputer discards it, the frame of
    line 171 gets fewer columns than labels, and the call raises
    [ValueError]. *)
Theorem column_without_value_raises_ValueError
        sqrt thr ns cs fv sc fn (w : world) (src d : DataFrame)
        (n : string) (c : list cell) :
  nth_error (heap w) bottle_df = Some src ->
  pruned thr src = Return d ->
  sc = "standard" \/ sc = "normal" ->
  get_column n (cols (iloc_from 4 d)) = Some c ->
  observed c = [] ->
  cs <> "constant" ->
  In n (cat_attributes (uniques (iloc_from 4 d))) /\
  fst (preprocess_data sqrt thr ns cs fv sc fn w) = Raise ValueError.
Proof.
  intros Hsrc Hd Hsc Hc Hobs Hcs.
  assert (Hn : In n (names (iloc_from 4 d))).
  { apply get_column_In in Hc. unfold names.
    change n with (fst (n, c)). now apply in_map. }
  assert (Hcat : In n (cat_attributes (uniques (iloc_from 4 d)))).
  { unfold cat_attributes. apply filter_In. split; [now apply uniques_keys|].
    rewrite (uniques_get _ _ Hn). unfold unique_count, nunique.
    now rewrite Hc, Hobs. }
  split; [exact Hcat|].
  rewrite preprocess_data_result, Hsrc.
  destruct (past_row_filter sqrt thr ns cs fv sc src d Hd Hsc) as [[t Ht]|H];
    [|exact H].
  exfalso. apply returned_inv in Ht.
  destruct Ht as [d' [scaler [Hd' [_ Ht]]]]. cbn zeta in Ht.
  rewrite Hd in Hd'. apply Return_inj in Hd'. subst d'.
  destruct Ht as [_ [Hall _]]. specialize (Hall n Hcat).
  unfold column_of in Hall at 1. rewrite Hc in Hall.
  rewrite statistic_none in Hall; [discriminate | exact Hcs | exact Hobs].
Qed.

Lemma column_without_value_raises_ValueError_witness :
  exists d,
    nth_error (heap (store_of late_feature)) bottle_df = Some late_feature /\
    pruned 70 late_feature = Return d /\
    get_column "Temperature" (cols (iloc_from 4 d)) = Some [None; None] /\
    observed [None; None] = [] /\ "most_frequent" <> "constant" /\
    In "Temperature" (cat_attributes (uniques (iloc_from 4 d))) /\
    fst (preprocess_data Num.Qsqrt 70 "mean" "most_frequent" (-999) "standard"
                         "prepared_data.csv" (store_of late_feature)) =
    Raise ValueError.
Proof.
  eexists. split; [reflexivity|]. split; [vm_compute; reflexivity|].
  split; [reflexivity|]. split; [reflexivity|]. split; [discriminate|].
  eapply (column_without_value_raises_ValueError
           Num.Qsqrt 70 "mean" "most_frequent" (-999)%Q "standard"
           "prepared_data.csv" (store_of late_feature) late_feature _
           "Temperature" [None; None]);
    [reflexivity | vm_compute; reflexivity | left; reflexivity |
     reflexivity | reflexivity | discriminate].
Defined.

(* ================================================================== *)
(** ** Scaling *)
(* ================================================================== *)














